(** * byplay: tasks.py, the documentation build tasks

    A shallow embedding of [tasks.py] and of the part of the Python runtime it
    runs on: a filesystem, [print], [open(p, 'w').close()], [os.remove],
    [shutil.copy2], invoke's [run], exceptions with their [__context__], and
    [try ... finally].

    Modelling choices, all visible in the definitions below:
    - the filesystem is a finite map from names to nodes, a node being a
      regular file with its content or a directory;
    - how a path leads to a name, and which accesses are refused on the way
      (a missing parent directory, a missing permission), is for the
      operating system to say: the calls take it as a parameter [OS]. The
      guards and the tasks are defined once, for any system. The properties
      of what the calls can refuse are stated for every system; the others
      for the [plain] one, where a path is the name of its file and no access
      is refused, so that the calls fail on a missing file, on a directory
      where a file is needed, and on copying a file onto itself;
    - the file metadata that [shutil.copy2] carries along is not represented;
    - a generator decorated with [contextlib.contextmanager] that yields once
      inside [try ... finally] is a function of the block of the [with]
      statement: the block runs where the generator yields. *)

From Stdlib Require Import ZArith Ascii.
From stdpp Require Import gmap strings list fin_maps.

Local Open Scope string_scope.
Local Open Scope list_scope.

(** ** posixpath: the three functions of [os.path] the tasks rely on *)

Module os_path.

Definition sep : ascii := "/"%char.

Definition is_sep (c : ascii) : bool := bool_decide (c = sep).

(** [rsplit p] cuts [p] after its last separator: [(p[:i], p[i:])] for
    [i = p.rfind('/') + 1]. *)
Fixpoint rsplit (p : string) : string * string :=
  match p with
  | EmptyString => (EmptyString, EmptyString)
  | String c p' =>
      let '(h, t) := rsplit p' in
      match h with
      | EmptyString =>
          if is_sep c then (String c EmptyString, t) else (EmptyString, String c t)
      | _ => (String c h, t)
      end
  end.

Fixpoint all_sep (s : string) : bool :=
  match s with
  | EmptyString => true
  | String c s' => is_sep c && all_sep s'
  end.

(** [s.rstrip('/')] *)
Fixpoint rstrip_sep (s : string) : string :=
  match s with
  | EmptyString => EmptyString
  | String c s' => if all_sep s then EmptyString else String c (rstrip_sep s')
  end.

Definition startswith_sep (s : string) : bool :=
  match s with
  | String c _ => is_sep c
  | EmptyString => false
  end.

Fixpoint endswith_sep (s : string) : bool :=
  match s with
  | EmptyString => false
  | String c EmptyString => is_sep c
  | String _ s' => endswith_sep s'
  end.

(** [os.path.join(a, b)] *)
Definition join (a b : string) : string :=
  if startswith_sep b then b
  else if bool_decide (a = EmptyString) || endswith_sep a then a +:+ b
  else a +:+ String sep b.

(** [os.path.basename(p)] *)
Definition basename (p : string) : string := snd (rsplit p).

(** [os.path.dirname(p)] *)
Definition dirname (p : string) : string :=
  let head := fst (rsplit p) in
  if bool_decide (head = EmptyString) || all_sep head then head
  else rstrip_sep head.

End os_path.

(** ** The filesystem, errors, and the observable history of a run *)

Inductive node : Type :=
  | File (content : string)
  | Dir.

Abbreviation filesystem := (gmap string node).

(** The calls that reach the operating system. *)
Inductive syscall : Type :=
  | SysOpenW (filepath : string)
  | SysCopy2 (src dst : string)
  | SysRemove (filepath : string)
  | SysRun (command : string).

(** The exception classes that can occur: those of the operating system and
    of [shutil], and invoke's [Failure] for a command that exits with a
    non-zero code (raised as its subclass UnexpectedExit in later releases). *)
Inductive errkind : Type :=
  | FileNotFoundError
  | IsADirectoryError
  | SameFileError
  | Failure (code : Z)
  | NotADirectoryError
  | PermissionError.

(** An exception object: what was raised and by which call, or an exception
    of the block of a [with] statement. *)
Inductive error : Type :=
  | OSError (kind : errkind) (raised_by : syscall)
  | BlockError (message : string).

(** The exception that propagates together with its [__context__] chain,
    the most recent context first. *)
Record exn : Type := Exn { exn_err : error; exn_context : list error }.

Inductive event : Type :=
  | EvPrint (line : string)
  | EvEcho (command : string)
  | EvCall (call : syscall)
  | EvBlock.

Record world : Type := World { w_fs : filesystem; w_trace : list event }.

Inductive result (A : Type) : Type :=
  | Ok (a : A)
  | Raise (x : exn).
Arguments Ok {A} a.
Arguments Raise {A} x.

#[global] Instance node_eq_dec : EqDecision node.
Proof. solve_decision. Defined.

(** ** A state and exception monad for Python statements *)

Definition M (A : Type) : Type := world -> result A * world.

Definition ret {A} (a : A) : M A := fun w => (Ok a, w).

Definition bind {A B} (m : M A) (k : A -> M B) : M B :=
  fun w =>
    match m w with
    | (Ok a, w1) => k a w1
    | (Raise x, w1) => (Raise x, w1)
    end.

Definition raise {A} (e : error) : M A := fun w => (Raise (Exn e []), w).

Notation "m1 ;; m2" := (bind m1 (fun _ => m2))
  (at level 100, m2 at level 200, right associativity).

(** An exception raised while [x] is being handled gets [x] as its context. *)
Definition during (x : exn) (y : exn) : exn :=
  Exn (exn_err y) (exn_context y ++ exn_err x :: exn_context x).

(** [try: body finally: final] *)
Definition try_finally {A} (body : M A) (final : M unit) : M A :=
  fun w =>
    match body w with
    | (Ok a, w1) =>
        match final w1 with
        | (Ok _, w2) => (Ok a, w2)
        | (Raise y, w2) => (Raise y, w2)
        end
    | (Raise x, w1) =>
        match final w1 with
        | (Ok _, w2) => (Raise x, w2)
        | (Raise y, w2) => (Raise (during x y), w2)
        end
    end.

Definition log (ev : event) : M unit :=
  fun w => (Ok tt, World (w_fs w) (w_trace w ++ [ev])).

Definition get_fs : M filesystem := fun w => (Ok (w_fs w), w).

Definition put_fs (s : filesystem) : M unit :=
  fun w => (Ok tt, World s (w_trace w)).

(** ** The runtime below tasks.py *)

(** What the operating system makes of a path. [resolve] gives the name under
    which the filesystem holds the file a path leads to: two paths name the
    same file exactly when they resolve to the same name. [refuses] tells
    whether, and with which error, the system refuses an access to a path
    before it looks at what stands there: an empty path, a missing parent
    directory, a parent that is a file, a missing permission. *)
Inductive access : Type :=
  | Reading
  | Writing
  | Unlinking.

Class OS : Type := {
  resolve : string -> string;
  refuses : filesystem -> access -> string -> option errkind
}.

(** The plain system: every path is the name of its file and no access is
    refused, so that the calls fail on a missing file, on a directory where a
    file is needed, and on copying a file onto itself. Statements that name
    no operating system are about this one. *)
#[global] Instance plain : OS := {|
  resolve := fun path => path;
  refuses := fun _ _ _ => None
|}.

(** A system that looks at the path: a leading [./] is dropped, and a file can
    only be created under a name that is not empty, in a directory that
    exists. Not an instance: it is named where it is meant. *)
Fixpoint strip_dot (path : string) : string :=
  match path with
  | String "."%char (String "/"%char path') => strip_dot path'
  | _ => path
  end.

Definition parent_error (s : filesystem) (path : string) : option errkind :=
  let d := os_path.dirname (strip_dot path) in
  if bool_decide (strip_dot path = EmptyString) then Some FileNotFoundError
  else if bool_decide (d = EmptyString) then None
  else match s !! d with
       | Some Dir => None
       | Some (File _) => Some NotADirectoryError
       | None => Some FileNotFoundError
       end.

Definition strict : OS := {|
  resolve := strip_dot;
  refuses := fun s a path =>
    match a with
    | Writing => parent_error s path
    | _ => None
    end
|}.

(** A system on which the user may overwrite nothing: every opening for
    writing is refused. Removing a file takes no permission on the file. *)
Definition read_only : OS := {|
  resolve := fun path => path;
  refuses := fun _ a _ =>
    match a with
    | Writing => Some PermissionError
    | _ => None
    end
|}.

(** [print(line)] *)
Definition print (line : string) : M unit := log (EvPrint line).

(** [open(filepath, 'w').close()]: creates the file or truncates it. *)
Definition open_w_close {sys : OS} (filepath : string) : M unit :=
  log (EvCall (SysOpenW filepath)) ;;
  bind get_fs (fun s =>
  match refuses s Writing filepath with
  | Some kind => raise (OSError kind (SysOpenW filepath))
  | None =>
      match s !! resolve filepath with
      | Some Dir => raise (OSError IsADirectoryError (SysOpenW filepath))
      | _ => put_fs (<[resolve filepath := File ""]> s)
      end
  end).

Module os.

(** [os.remove(filepath)] *)
Definition remove {sys : OS} (filepath : string) : M unit :=
  log (EvCall (SysRemove filepath)) ;;
  bind get_fs (fun s =>
  match refuses s Unlinking filepath with
  | Some kind => raise (OSError kind (SysRemove filepath))
  | None =>
      match s !! resolve filepath with
      | None => raise (OSError FileNotFoundError (SysRemove filepath))
      | Some Dir => raise (OSError IsADirectoryError (SysRemove filepath))
      | Some (File _) => put_fs (delete (resolve filepath) s)
      end
  end).

End os.

Module shutil.

(** [shutil.copy2(src, dst)]: a directory as destination receives the file
    under the base name of [src]; copying a file onto itself is refused;
    the source is opened before the destination is created or truncated. *)
Definition copy2 {sys : OS} (src dst : string) : M unit :=
  log (EvCall (SysCopy2 src dst)) ;;
  bind get_fs (fun s =>
  let dst' :=
    match s !! resolve dst with
    | Some Dir => os_path.join dst (os_path.basename src)
    | _ => dst
    end in
  if bool_decide (resolve src = resolve dst')
     && bool_decide (is_Some (s !! resolve src)) then
    raise (OSError SameFileError (SysCopy2 src dst))
  else
    match refuses s Reading src with
    | Some kind => raise (OSError kind (SysCopy2 src dst))
    | None =>
        match s !! resolve src with
        | None => raise (OSError FileNotFoundError (SysCopy2 src dst))
        | Some Dir => raise (OSError IsADirectoryError (SysCopy2 src dst))
        | Some (File c) =>
            match refuses s Writing dst' with
            | Some kind => raise (OSError kind (SysCopy2 src dst))
            | None =>
                match s !! resolve dst' with
                | Some Dir => raise (OSError IsADirectoryError (SysCopy2 src dst))
                | _ => put_fs (<[resolve dst' := File c]> s)
                end
            end
        end
    end).

End shutil.

(** The block of a [with] statement, as the guards see it: any change of the
    filesystem, ending normally or with an exception. *)
Definition block : Type := filesystem -> option error * filesystem.

(** How a block ends, as the caller of the guard sees it. *)
Definition outcome (o : option error) : result unit :=
  match o with
  | None => Ok tt
  | Some e => Raise (Exn e [])
  end.

Definition run_block (body : block) : M unit :=
  fun w =>
    let '(o, s) := body (w_fs w) in
    (outcome o, World s (w_trace w ++ [EvBlock])).

(** ** tasks.py: the helpers *)

(** [temp_file(filepath)], applied to the block it guards. *)
Definition temp_file {sys : OS} (filepath : string) (body : M unit) : M unit :=
  try_finally
    (print ("create temp file " +:+ filepath) ;;
     open_w_close filepath ;;
     body)
    (print ("remove temp file " +:+ filepath) ;;
     os.remove filepath).

(** [backed_up_file(filepath, backup_path)], applied to the block it guards. *)
Definition backed_up_file {sys : OS} (filepath backup_path : string) (body : M unit) :
    M unit :=
  temp_file backup_path
    (try_finally
       (print ("copy " +:+ filepath +:+ " to backup " +:+ backup_path) ;;
        shutil.copy2 filepath backup_path ;;
        body)
       (print ("recover " +:+ filepath +:+ " from backup " +:+ backup_path) ;;
        shutil.copy2 backup_path filepath)).

(** ** tasks.py: the tasks *)

Section Tasks.

Context {sys : OS}.

(** The shell: what a command line does to the filesystem, and its exit
    code. The programs it starts are not part of this repository. *)
Variable sh : string -> filesystem -> Z * filesystem.

(** invoke's [run(command, echo=echo)], with [warn] left at its default: a
    non-zero exit code raises. *)
Definition run (command : string) (echo : bool) : M unit :=
  (if echo then log (EvEcho command) else ret tt) ;;
  log (EvCall (SysRun command)) ;;
  bind get_fs (fun s =>
  let '(code, s') := sh command s in
  put_fs s' ;;
  if (code =? 0)%Z then ret tt
  else raise (OSError (Failure code) (SysRun command))).

(** [lein(args)] *)
Definition lein (args : string) : M unit :=
  run ("lein " +:+ args) true.

Definition index_path : string := os_path.join "docs" "index.md".

Definition index_backup_path : string := "index.md_original".

(** [mkdocs(clean)] *)
Definition mkdocs (clean : bool) : M unit :=
  backed_up_file index_path index_backup_path
    (shutil.copy2 "README.md" index_path ;;
     run ("mkdocs build" +:+ (if clean then " --clean" else "")) true).

(** [api()] *)
Definition api : M unit := lein "codox".

(** invoke runs the calls of a task one after the other: the [pre] calls,
    the body, the [post] calls. An exception ends the run. *)
Fixpoint run_calls (calls : list (M unit)) : M unit :=
  match calls with
  | [] => ret tt
  | c :: calls' => c ;; run_calls calls'
  end.

Definition invoke_task (pre : list (M unit)) (body : M unit) (post : list (M unit)) : M unit :=
  run_calls (pre ++ body :: post).

(** [site()], declared with [post=[call(mkdocs, clean=True), call(api)]] *)
Definition site : M unit :=
  invoke_task [] (ret tt) [mkdocs true; api].

End Tasks.

(** ** tasks.py: the working-directory guard

    [chdir] needs the one piece of state the tasks above do not use: the
    current working directory of the process. What [os.chdir] makes of a path
    (relative names, links, a directory that is gone) is the operating
    system's business and stays a parameter: from the filesystem, the current
    directory and the path it gives the directory entered or the error
    raised. *)

Record process : Type := Process { p_cwd : string; p_world : world }.

Definition P (A : Type) : Type := process -> result A * process.

Definition pret {A} (a : A) : P A := fun p => (Ok a, p).

Definition pbind {A B} (m : P A) (k : A -> P B) : P B :=
  fun p =>
    match m p with
    | (Ok a, p1) => k a p1
    | (Raise x, p1) => (Raise x, p1)
    end.

(** [try: body finally: final], for statements of a process. *)
Definition ptry_finally {A} (body : P A) (final : P unit) : P A :=
  fun p =>
    match body p with
    | (Ok a, p1) =>
        match final p1 with
        | (Ok _, p2) => (Ok a, p2)
        | (Raise y, p2) => (Raise y, p2)
        end
    | (Raise x, p1) =>
        match final p1 with
        | (Ok _, p2) => (Raise x, p2)
        | (Raise y, p2) => (Raise (during x y), p2)
        end
    end.

(** A statement that does not look at the working directory. *)
Definition lift {A} (m : M A) : P A :=
  fun p => let '(r, w) := m (p_world p) in (r, Process (p_cwd p) w).

(** The block of [with chdir(...)]: it sees the working directory, may
    change it and the filesystem, and ends normally or with an exception. *)
Definition pblock : Type :=
  string -> filesystem -> option error * (string * filesystem).

Definition run_pblock (body : pblock) : P unit :=
  fun p =>
    let '(o, (d, s)) := body (p_cwd p) (w_fs (p_world p)) in
    (outcome o, Process d (World s (w_trace (p_world p) ++ [EvBlock]))).

Section Chdir.

Variable enter : filesystem -> string -> string -> error + string.

(** [os.getcwd()] *)
Definition os_getcwd : P string := fun p => (Ok (p_cwd p), p).

(** [os.chdir(path)] *)
Definition os_chdir (path : string) : P unit :=
  fun p =>
    match enter (w_fs (p_world p)) (p_cwd p) path with
    | inl e => (Raise (Exn e []), p)
    | inr d => (Ok tt, Process d (p_world p))
    end.

(** [chdir(dirname)], applied to the block it guards. *)
Definition chdir (dirname : string) (body : P unit) : P unit :=
  pbind os_getcwd (fun curdir =>
  ptry_finally
    (pbind (os_chdir dirname) (fun _ =>
     pbind (lift (print ("current dir: " +:+ dirname))) (fun _ =>
     body)))
    (os_chdir curdir)).

End Chdir.

(** A small operating system to run [chdir] on: a path names a directory
    when the filesystem holds one under that very name, taken from the
    current directory unless it starts at the root. *)
Definition chdir_by_name : filesystem -> string -> string -> error + string :=
  fun s cwd path =>
    let target := os_path.join cwd path in
    match s !! target with
    | Some Dir => inr target
    | _ => inl (BlockError ("cannot enter " +:+ target))
    end.

Definition tree : filesystem :=
  <["/repo/docs" := Dir]> (<["/repo" := Dir]> {["/repo/README.md" := File "new"]}).

(** ** Specifications *)

(** The process on which the block of [with chdir(dirname)] starts, when
    [os.chdir(dirname)] has entered directory [d]. *)
Definition chdir_entered (dirname d : string) (p : process) : process :=
  Process d (World (w_fs (p_world p))
                   (w_trace (p_world p) ++ [EvPrint ("current dir: " +:+ dirname)])).



(** What each guard adds to the history on the way in and on the way out. *)
Definition temp_file_entry (p : string) : list event :=
  [EvPrint ("create temp file " +:+ p); EvCall (SysOpenW p)].

Definition temp_file_exit (p : string) : list event :=
  [EvPrint ("remove temp file " +:+ p); EvCall (SysRemove p)].

Definition backup_entry (f b : string) : list event :=
  [EvPrint ("copy " +:+ f +:+ " to backup " +:+ b); EvCall (SysCopy2 f b)].

Definition backup_exit (f b : string) : list event :=
  [EvPrint ("recover " +:+ f +:+ " from backup " +:+ b); EvCall (SysCopy2 b f)].

(** The command line of the static-site build. *)
Definition build_command (clean : bool) : string :=
  "mkdocs build" +:+ (if clean then " --clean" else "").

(** A checkout to run the tasks on, and a shell whose commands write the
    site and exit with a given code. *)
Definition repo : filesystem :=
  <["docs/index.md" := File "old"]> {["README.md" := File "new"]}.

Definition sh_site (exit_code : Z) : string -> filesystem -> Z * filesystem :=
  fun command s => (exit_code, <["site/index.html" := File command]> s).

(** Two paths are siblings when they lie in the same directory. *)
Definition sibling (a b : string) : Prop :=
  os_path.dirname a = os_path.dirname b.

(** A statement only ever adds to the history. *)
Definition extends {A} (m : M A) : Prop :=
  forall w, exists evs : list event, w_trace (m w).2 = w_trace w ++ evs.

Ltac exec :=
  unfold backed_up_file; unfold temp_file;
  unfold try_finally, os.remove, shutil.copy2,
    open_w_close, run_block, print, log, get_fs, put_fs, raise, bind, ret;
  simpl.

Ltac case_lookup :=
  match goal with
  | |- context [match ?s !! ?k with _ => _ end] =>
      let H := fresh "Hl" in
      destruct (s !! k) as [[?|]|] eqn:H; simpl
  | |- context [bool_decide ?P] =>
      let H := fresh "Hd" in
      destruct (bool_decide P) eqn:H; simpl
  end.

Ltac trace_eq :=
  unfold temp_file_entry, temp_file_exit, backup_entry, backup_exit;
  simpl; rewrite <- ?app_assoc; simpl; try reflexivity.

Lemma extends_ret {A} (a : A) : extends (ret a).
Proof. intros w. exists []. simpl. by rewrite app_nil_r. Qed.

Lemma extends_raise {A} (e : error) : extends (@raise A e).
Proof. intros w. exists []. simpl. by rewrite app_nil_r. Qed.

Lemma extends_log (ev : event) : extends (log ev).
Proof. intros w. by exists [ev]. Qed.

Lemma extends_get_fs : extends get_fs.
Proof. intros w. exists []. simpl. by rewrite app_nil_r. Qed.

Lemma extends_put_fs (s : filesystem) : extends (put_fs s).
Proof. intros w. exists []. simpl. by rewrite app_nil_r. Qed.

Lemma extends_bind {A B} (m : M A) (k : A -> M B) :
  extends m -> (forall a, extends (k a)) -> extends (bind m k).
Proof.
  intros Hm Hk w. unfold bind. destruct (Hm w) as [e1 H1].
  destruct (m w) as [[a|x] w1]; simpl in *.
  - destruct (Hk a w1) as [e2 H2]. exists (e1 ++ e2).
    by rewrite H2, H1, app_assoc.
  - by exists e1.
Qed.

Lemma extends_try_finally {A} (m : M A) (final : M unit) :
  extends m -> extends final -> extends (try_finally m final).
Proof.
  intros Hm Hf w. unfold try_finally. destruct (Hm w) as [e1 H1].
  destruct (m w) as [[a|x] w1]; simpl in *; destruct (Hf w1) as [e2 H2];
    destruct (final w1) as [[[]|y] w2]; simpl in *;
    exists (e1 ++ e2); by rewrite H2, H1, app_assoc.
Qed.

Create HintDb extends.

#[local] Hint Resolve extends_ret extends_raise extends_log extends_get_fs
  extends_put_fs extends_bind extends_try_finally : extends.

Lemma extends_print (line : string) : extends (print line).
Proof. apply extends_log. Qed.

Lemma extends_open_w_close {sys : OS} (p : string) : extends (open_w_close p).
Proof.
  unfold open_w_close. apply extends_bind; [auto with extends|intros _].
  apply extends_bind; [auto with extends|intros s].
  destruct (refuses s _ p); [auto with extends|].
  destruct (s !! resolve p) as [[c|]|]; auto with extends.
Qed.

Lemma extends_remove {sys : OS} (p : string) : extends (os.remove p).
Proof.
  unfold os.remove. apply extends_bind; [auto with extends|intros _].
  apply extends_bind; [auto with extends|intros s].
  destruct (refuses s _ p); [auto with extends|].
  destruct (s !! resolve p) as [[c|]|]; auto with extends.
Qed.

Lemma extends_copy2 {sys : OS} (src dst : string) : extends (shutil.copy2 src dst).
Proof.
  unfold shutil.copy2. apply extends_bind; [auto with extends|intros _].
  apply extends_bind; [auto with extends|intros s]. simpl.
  destruct (_ && _); [auto with extends|].
  destruct (refuses s _ src); [auto with extends|].
  destruct (s !! resolve src) as [[c|]|]; auto with extends.
  destruct (refuses s _ _); [auto with extends|].
  destruct (s !! resolve _) as [[c'|]|]; auto with extends.
Qed.

Lemma extends_run_block (body : block) : extends (run_block body).
Proof.
  intros w. unfold run_block. destruct (body (w_fs w)) as [o s]. by exists [EvBlock].
Qed.

#[local] Hint Resolve extends_print extends_open_w_close extends_remove
  extends_copy2 extends_run_block : extends.

(** The placeholder guard opens the history of its run with the creation and
    closes it with the removal. *)
Lemma temp_file_brackets (p : string) (m : M unit) (w : world) :
  extends m ->
  exists mid,
    w_trace (temp_file p m w).2 =
    w_trace w ++ temp_file_entry p ++ mid ++ temp_file_exit p.
Proof.
  intros Hm. exec.
  destruct (w_fs w !! p) as [[c|]|] eqn:Hp; simpl;
    [ | exists []; rewrite Hp; simpl; trace_eq | ];
    (match goal with |- context [m ?w0] =>
       destruct (Hm w0) as [evs He]; destruct (m w0) as [r w1] end;
     simpl in He; exists evs;
     destruct r; simpl; repeat case_lookup; rewrite He; trace_eq).
Qed.

(** ** The system calls, on any operating system *)

Section Calls.

Context {sys : OS}.

Lemma open_w_close_ok (p : string) (w : world) :
  refuses (w_fs w) Writing p = None ->
  w_fs w !! resolve p ≠ Some Dir ->
  open_w_close p w =
  (Ok tt, World (<[resolve p := File ""]> (w_fs w))
                (w_trace w ++ [EvCall (SysOpenW p)])).
Proof.
  intros Hr Hd. exec. rewrite Hr.
  by destruct (w_fs w !! resolve p) as [[c|]|].
Qed.


(** A creation that fails raises the error of that call, leaves the
    filesystem alone, and fails alike whatever the history. *)
Lemma open_w_close_raises_inv (p : string) (w w1 : world) (x : exn) :
  open_w_close p w = (Raise x, w1) ->
  exists kind, x = Exn (OSError kind (SysOpenW p)) [] /\
    forall t, open_w_close p (World (w_fs w) t) =
              (Raise x, World (w_fs w) (t ++ [EvCall (SysOpenW p)])).
Proof.
  exec. destruct (refuses (w_fs w) Writing p) as [kind|] eqn:Hr; simpl.
  - intros [= <- <-]. exists kind. split; [reflexivity|].
    intros t. exec. rewrite ?Hr. reflexivity.
  - destruct (w_fs w !! resolve p) as [[c|]|] eqn:Hp; simpl; intros [= <- <-].
    exists IsADirectoryError. split; [reflexivity|].
    intros t. exec. rewrite ?Hr, ?Hp. reflexivity.
Qed.

Lemma remove_run (p : string) (w : world) :
  os.remove p w =
  (match refuses (w_fs w) Unlinking p, w_fs w !! resolve p with
   | Some kind, _ => Raise (Exn (OSError kind (SysRemove p)) [])
   | None, Some (File _) => Ok tt
   | None, Some Dir => Raise (Exn (OSError IsADirectoryError (SysRemove p)) [])
   | None, None => Raise (Exn (OSError FileNotFoundError (SysRemove p)) [])
   end,
   World (match refuses (w_fs w) Unlinking p, w_fs w !! resolve p with
          | None, Some (File _) => delete (resolve p) (w_fs w)
          | _, _ => w_fs w
          end)
         (w_trace w ++ [EvCall (SysRemove p)])).
Proof.
  exec. destruct (refuses (w_fs w) Unlinking p); [reflexivity|].
  by destruct (w_fs w !! resolve p) as [[c|]|].
Qed.


(** Copying a file onto another path where no directory stands. *)
Lemma copy2_ok (src dst c : string) (w : world) :
  w_fs w !! resolve dst ≠ Some Dir ->
  resolve src ≠ resolve dst ->
  refuses (w_fs w) Reading src = None ->
  w_fs w !! resolve src = Some (File c) ->
  refuses (w_fs w) Writing dst = None ->
  shutil.copy2 src dst w =
  (Ok tt, World (<[resolve dst := File c]> (w_fs w))
                (w_trace w ++ [EvCall (SysCopy2 src dst)])).
Proof.
  intros Hd Hne Hrs Hs Hr. exec.
  destruct (w_fs w !! resolve dst) as [[cd|]|] eqn:Hdst; try done;
    rewrite (bool_decide_eq_false_2 (resolve src = resolve dst)) by done;
    simpl; rewrite Hrs, Hs, Hr, Hdst; reflexivity.
Qed.

Lemma copy2_refused (src dst c : string) (kind : errkind) (w : world) :
  w_fs w !! resolve dst ≠ Some Dir ->
  resolve src ≠ resolve dst ->
  refuses (w_fs w) Reading src = None ->
  w_fs w !! resolve src = Some (File c) ->
  refuses (w_fs w) Writing dst = Some kind ->
  shutil.copy2 src dst w =
  (Raise (Exn (OSError kind (SysCopy2 src dst)) []),
   World (w_fs w) (w_trace w ++ [EvCall (SysCopy2 src dst)])).
Proof.
  intros Hd Hne Hrs Hs Hr. exec.
  destruct (w_fs w !! resolve dst) as [[cd|]|] eqn:Hdst; try done;
    rewrite (bool_decide_eq_false_2 (resolve src = resolve dst)) by done;
    simpl; rewrite Hrs, Hs, Hr; reflexivity.
Qed.

Lemma copy2_missing (src dst : string) (w : world) :
  refuses (w_fs w) Reading src = None ->
  w_fs w !! resolve src = None ->
  shutil.copy2 src dst w =
  (Raise (Exn (OSError FileNotFoundError (SysCopy2 src dst)) []),
   World (w_fs w) (w_trace w ++ [EvCall (SysCopy2 src dst)])).
Proof.
  intros Hrs Hs. exec. rewrite Hs, Hrs.
  rewrite (bool_decide_eq_false_2 (is_Some None)) by (intros [? ?]; discriminate).
  by rewrite andb_false_r.
Qed.


End Calls.

Section TempFile.

Variables (p : string) (body : block) (w : world).

Let s_in : filesystem := <[p := File ""]> (w_fs w).
Let s_out : filesystem := (body s_in).2.

(** Whenever no directory stands at [p], the block runs on the filesystem
    with an empty file at [p], and the removal is called when it is over. *)
Lemma temp_file_trace :
  w_fs w !! p ≠ Some Dir ->
  w_trace (temp_file p (run_block body) w).2 =
  w_trace w ++ temp_file_entry p ++ EvBlock :: temp_file_exit p.
Proof.
  intros Hd. exec.
  destruct (w_fs w !! p) as [[c|]|] eqn:Hp; try done; simpl; fold s_in;
    destruct (body s_in) as [[e|] s2]; simpl;
    destruct (s2 !! p) as [[c2|]|]; simpl; trace_eq.
Qed.

(** If the block leaves a file at [p], the guard removes it and ends as the
    block ended. *)
Lemma temp_file_removes (c' : string) :
  w_fs w !! p ≠ Some Dir ->
  s_out !! p = Some (File c') ->
  (temp_file p (run_block body) w).1 = outcome (body s_in).1 /\
  w_fs (temp_file p (run_block body) w).2 = delete p s_out.
Proof.
  intros Hd. subst s_out. exec.
  destruct (w_fs w !! p) as [[c|]|] eqn:Hp; try done; simpl; fold s_in;
    destruct (body s_in) as [[e|] s2]; simpl; intros H2; rewrite H2; simpl;
    try split; reflexivity.
Qed.

(** After the guard, no regular file is left at [p], whatever the block did. *)
Lemma temp_file_no_file_left (c' : string) :
  w_fs w !! p ≠ Some Dir ->
  w_fs (temp_file p (run_block body) w).2 !! p ≠ Some (File c').
Proof.
  intros Hd. exec.
  destruct (w_fs w !! p) as [[c|]|] eqn:Hp; try done; simpl; fold s_in;
    destruct (body s_in) as [[e|] s2]; simpl;
    destruct (s2 !! p) as [[c2|]|] eqn:H2; simpl;
    rewrite ?lookup_delete_eq, ?H2; discriminate.
Qed.

(** If the block leaves nothing at [p], the removal fails and nothing is at
    [p] afterwards. *)
Lemma temp_file_already_gone :
  w_fs w !! p ≠ Some Dir ->
  s_out !! p = None ->
  w_fs (temp_file p (run_block body) w).2 !! p = None.
Proof.
  intros Hd. subst s_out. exec.
  destruct (w_fs w !! p) as [[c|]|] eqn:Hp; try done; simpl; fold s_in;
    destruct (body s_in) as [[e|] s2]; simpl; intros H2; rewrite H2; simpl;
    exact H2.
Qed.

End TempFile.

Lemma temp_file_elsewhere (p q : string) (body : block) (w : world) :
  w_fs w !! p ≠ Some Dir -> q ≠ p ->
  w_fs (temp_file p (run_block body) w).2 !! q =
  (body (<[p := File ""]> (w_fs w))).2 !! q.
Proof.
  intros Hd Hq. exec.
  destruct (w_fs w !! p) as [[c|]|] eqn:Hp; try done; simpl;
    destruct (body _) as [[e|] s2]; simpl;
    destruct (s2 !! p) as [[c2|]|] eqn:H2; simpl;
    rewrite ?lookup_delete_ne by done; reflexivity.
Qed.

(** When the creation fails, the block is skipped, the removal is still
    called, and what it raises takes the creation error as its context. *)
Lemma temp_file_creation_raises (p : string) (body : M unit) (w : world) :
  w_fs w !! p = Some Dir ->
  temp_file p body w =
  (Raise (Exn (OSError IsADirectoryError (SysRemove p))
              [OSError IsADirectoryError (SysOpenW p)]),
   World (w_fs w) (w_trace w ++ temp_file_entry p ++ temp_file_exit p)).
Proof.
  intros Hp. exec. rewrite Hp. simpl. rewrite Hp. simpl.
  unfold during. simpl. f_equal. f_equal. trace_eq.
Qed.

(** C4 (as amended). If nothing is at [p] when the placeholder guard is
    entered, the block runs on a filesystem that holds an empty file at [p];
    and if the block leaves no directory at [p], nothing is at [p] once the
    guard is left, whether the block returned or raised, the rest of the
    filesystem being as the block left it. *)
Theorem temp_file_absent_before_and_after (p : string) (body : block) (w : world) :
  w_fs w !! p = None ->
  (body (<[p := File ""]> (w_fs w))).2 !! p ≠ Some Dir ->
  <[p := File ""]> (w_fs w) !! p = Some (File "") /\
  w_trace (temp_file p (run_block body) w).2 =
    w_trace w ++ temp_file_entry p ++ EvBlock :: temp_file_exit p /\
  w_fs (temp_file p (run_block body) w).2 !! p = None /\
  (forall q, q ≠ p ->
     w_fs (temp_file p (run_block body) w).2 !! q =
     (body (<[p := File ""]> (w_fs w))).2 !! q).
Proof.
  intros Hp Hd.
  assert (Hnd : w_fs w !! p ≠ Some Dir) by (rewrite Hp; discriminate).
  split; [apply lookup_insert_eq|]. split; [by apply temp_file_trace|].
  split; [|intros q Hq; by apply temp_file_elsewhere].
  destruct ((body (<[p := File ""]> (w_fs w))).2 !! p) as [[c'|]|] eqn:Hs.
  - destruct (temp_file_removes p body w c' Hnd Hs) as [_ ->].
    apply lookup_delete_eq.
  - done.
  - by apply temp_file_already_gone.
Qed.

Lemma temp_file_absent_before_and_after_witness :
  let w := World {["README.md" := File "new"]} [] in
  let body : block := fun s => (Some (BlockError "boom"), <["out" := File "x"]> s) in
  w_fs (temp_file "scratch" (run_block body) w).2 !! "scratch" = None.
Proof.
  intros w body.
  apply (temp_file_absent_before_and_after "scratch" body w).
  - reflexivity.
  - vm_compute. discriminate.
Defined.

(** C4 (as stated) fails for a block that puts a directory where the
    placeholder was: the removal raises and the path is still taken. *)
Lemma temp_file_block_leaves_directory :
  let w := World ∅ [] in
  let body : block := fun s => (None, <["scratch" := Dir]> s) in
  w_fs w !! "scratch" = None /\
  temp_file "scratch" (run_block body) w =
    (Raise (Exn (OSError IsADirectoryError (SysRemove "scratch")) []),
     World {["scratch" := Dir]}
           (temp_file_entry "scratch" ++ EvBlock :: temp_file_exit "scratch")) /\
  w_fs (temp_file "scratch" (run_block body) w).2 !! "scratch" ≠ None.
Proof.
  intros w body. split; [reflexivity|]. split.
  - vm_compute. reflexivity.
  - vm_compute. discriminate.
Qed.

(** C10. If a regular file is at [p] when the placeholder guard is entered,
    the entry raises nothing: the file is emptied and the block runs on that
    filesystem; on the way out the removal is called, and no regular file is
    at [p] afterwards. If the block left a file at [p], that file is removed
    and the guard ends the way the block ended. *)
Theorem temp_file_existing_file (p c : string) (body : block) (w : world) :
  w_fs w !! p = Some (File c) ->
  let s_in := <[p := File ""]> (w_fs w) in
  let s_out := (body s_in).2 in
  let end_ := temp_file p (run_block body) w in
  s_in !! p = Some (File "") /\
  w_trace end_.2 = w_trace w ++ temp_file_entry p ++ EvBlock :: temp_file_exit p /\
  (forall q, q ≠ p -> w_fs end_.2 !! q = s_out !! q) /\
  (forall c', w_fs end_.2 !! p ≠ Some (File c')) /\
  (forall c', s_out !! p = Some (File c') ->
     end_.1 = outcome (body s_in).1 /\ w_fs end_.2 = delete p s_out).
Proof.
  intros Hp s_in s_out end_.
  assert (Hnd : w_fs w !! p ≠ Some Dir) by (rewrite Hp; discriminate).
  split; [apply lookup_insert_eq|].
  split; [by apply temp_file_trace|].
  split; [intros q Hq; by apply temp_file_elsewhere|].
  split; [intros c'; by apply temp_file_no_file_left|].
  intros c' Hs. by apply (temp_file_removes p body w c').
Qed.

Lemma temp_file_existing_file_witness :
  let w := World {["notes.txt" := File "precious"]} [] in
  let body : block := fun s => (None, <["out" := File "x"]> s) in
  temp_file "notes.txt" (run_block body) w =
    (Ok tt, World {["out" := File "x"]}
                  (temp_file_entry "notes.txt" ++ EvBlock :: temp_file_exit "notes.txt")) /\
  forall c', w_fs (temp_file "notes.txt" (run_block body) w).2 !! "notes.txt"
             ≠ Some (File c').
Proof.
  intros w body. split; [vm_compute; reflexivity|].
  apply (temp_file_existing_file "notes.txt" "precious" body w).
  reflexivity.
Defined.

(** C6 (as amended). If creating the file fails, for whatever reason the
    operating system has, the block is not run and the guard still calls the
    removal; an error reaches the caller that carries the creation error, as
    the error itself or in its context. Which of the two depends on the
    removal: if it succeeds (a regular file stands at the path, which could
    not be opened) the file is gone and the creation error reaches the
    caller; if it fails too (it is refused, nothing is at the path, or a
    directory) the caller receives the removal's error and the creation
    error is its context. *)
Theorem temp_file_creation_fails {sys : OS} (p : string) (body : block)
    (w w1 : world) (x : exn) :
  open_w_close p w = (Raise x, w1) ->
  exists y w',
    temp_file p (run_block body) w = (Raise y, w') /\
    w_trace w' = w_trace w ++ temp_file_entry p ++ temp_file_exit p /\
    In (exn_err x) (exn_err y :: exn_context y) /\
    match refuses (w_fs w) Unlinking p, w_fs w !! resolve p with
    | Some kind, _ =>
        y = Exn (OSError kind (SysRemove p)) [exn_err x] /\
        w_fs w' = w_fs w
    | None, Some (File _) =>
        y = x /\ w_fs w' = delete (resolve p) (w_fs w)
    | None, Some Dir =>
        y = Exn (OSError IsADirectoryError (SysRemove p)) [exn_err x] /\
        w_fs w' = w_fs w
    | None, None =>
        y = Exn (OSError FileNotFoundError (SysRemove p)) [exn_err x] /\
        w_fs w' = w_fs w
    end.
Proof.
  intros Hopen.
  destruct (open_w_close_raises_inv p w w1 x Hopen) as (kind & -> & Hany).
  unfold temp_file, try_finally, bind, print, log. simpl.
  rewrite Hany. simpl. rewrite remove_run. simpl.
  destruct (refuses (w_fs w) Unlinking p) as [kind'|];
    [|destruct (w_fs w !! resolve p) as [[c|]|]]; simpl;
    eexists _, _; (split; [reflexivity|]); simpl;
    (split; [trace_eq|]); (split; [auto|]); split; reflexivity.
Qed.

Lemma temp_file_creation_fails_witness :
  let body : block := fun s => (None, <["out" := File "x"]> s) in
  (exists y w',
     temp_file (sys:=strict) "cache/lock" (run_block body) (World ∅ [])
       = (Raise y, w') /\
     w_trace w' = temp_file_entry "cache/lock" ++ temp_file_exit "cache/lock" /\
     y = Exn (OSError FileNotFoundError (SysRemove "cache/lock"))
             [OSError FileNotFoundError (SysOpenW "cache/lock")]) /\
  (exists y w',
     temp_file (sys:=read_only) "notes.txt" (run_block body)
       (World {["notes.txt" := File "precious"]} []) = (Raise y, w') /\
     y = Exn (OSError PermissionError (SysOpenW "notes.txt")) [] /\
     w_fs w' = ∅).
Proof.
  intros body. split.
  - destruct (temp_file_creation_fails (sys:=strict) "cache/lock" body (World ∅ [])
                (World ∅ [EvCall (SysOpenW "cache/lock")])
                (Exn (OSError FileNotFoundError (SysOpenW "cache/lock")) []))
      as (y & w' & H1 & H2 & _ & H3 & _).
    + vm_compute. reflexivity.
    + exists y, w'. split; [exact H1|]. split; [exact H2|exact H3].
  - destruct (temp_file_creation_fails (sys:=read_only) "notes.txt" body
                (World {["notes.txt" := File "precious"]} [])
                (World {["notes.txt" := File "precious"]}
                       [EvCall (SysOpenW "notes.txt")])
                (Exn (OSError PermissionError (SysOpenW "notes.txt")) []))
      as (y & w' & H1 & _ & _ & H3 & H4).
    + vm_compute. reflexivity.
    + exists y, w'. split; [exact H1|]. split; [exact H3|].
      rewrite H4. vm_compute. reflexivity.
Defined.

(** C6 (as stated) fails when a directory stands at the path: the error the
    caller receives is the one of the failed removal, not the creation
    error. *)
Lemma temp_file_creation_error_superseded :
  let w := World {["build" := Dir]} [] in
  let body : block := fun s => (None, s) in
  open_w_close "build" w =
    (Raise (Exn (OSError IsADirectoryError (SysOpenW "build")) []),
     World {["build" := Dir]} [EvCall (SysOpenW "build")]) /\
  exists y w',
    temp_file "build" (run_block body) w = (Raise y, w') /\
    exn_err y = OSError IsADirectoryError (SysRemove "build") /\
    exn_err y ≠ OSError IsADirectoryError (SysOpenW "build").
Proof.
  intros w body. split; [vm_compute; reflexivity|].
  eexists _, _. split; [vm_compute; reflexivity|]. simpl. split; [reflexivity|discriminate].
Qed.

Section BackedUpFile.

Variables (f b : string) (body : block) (w : world).

(** With a directory at the backup path the guard stops at the creation:
    neither copy is called. *)
Lemma backed_up_file_trace_no_placeholder (m : M unit) :
  w_fs w !! b = Some Dir ->
  w_trace (backed_up_file f b m w).2 =
  w_trace w ++ temp_file_entry b ++ temp_file_exit b.
Proof.
  intros Hb. unfold backed_up_file.
  by rewrite temp_file_creation_raises.
Qed.

(** When the entry copy fails, the block is skipped; the restoring copy and
    the removal are called all the same. *)
Lemma backed_up_file_trace_no_backup (m : M unit) :
  w_fs w !! b ≠ Some Dir ->
  (f = b \/ forall c, w_fs w !! f ≠ Some (File c)) ->
  w_trace (backed_up_file f b m w).2 =
  w_trace w ++ temp_file_entry b ++ backup_entry f b ++ backup_exit f b
            ++ temp_file_exit b.
Proof.
  intros Hb Hf. exec.
  destruct (w_fs w !! b) as [[cb|]|] eqn:Hwb; try done; simpl;
    rewrite lookup_insert_eq; simpl.
  all: destruct (decide (f = b)) as [->|Hne];
    [ rewrite !bool_decide_eq_true_2 by (done || by rewrite lookup_insert_eq);
      simpl; rewrite !lookup_insert_eq; simpl;
      rewrite !bool_decide_eq_true_2 by (done || by rewrite lookup_insert_eq);
      simpl; rewrite !lookup_insert_eq; simpl; trace_eq
    | destruct Hf as [|Hf]; [done|];
      rewrite (bool_decide_eq_false_2 (f = b)) by done; simpl;
      rewrite !lookup_insert_ne by done;
      destruct (w_fs w !! f) as [[cf|]|] eqn:Hwf; simpl;
      [ by destruct (Hf cf) | | ] ].
  all: rewrite ?lookup_insert_ne by done; rewrite ?Hwf; simpl;
    repeat case_lookup; trace_eq.
Qed.

Lemma backed_up_file_no_backup_raises (m : M unit) :
  w_fs w !! b ≠ Some Dir ->
  (f = b \/ forall c, w_fs w !! f ≠ Some (File c)) ->
  exists y, (backed_up_file f b m w).1 = Raise y.
Proof.
  intros Hb Hf. exec.
  destruct (w_fs w !! b) as [[cb|]|] eqn:Hwb; try done; simpl;
    rewrite lookup_insert_eq; simpl.
  all: destruct (decide (f = b)) as [->|Hne];
    [ rewrite !bool_decide_eq_true_2 by (done || by rewrite lookup_insert_eq);
      simpl; rewrite !lookup_insert_eq; simpl;
      rewrite !bool_decide_eq_true_2 by (done || by rewrite lookup_insert_eq);
      simpl; rewrite !lookup_insert_eq; simpl; eexists; reflexivity
    | destruct Hf as [|Hf]; [done|];
      rewrite (bool_decide_eq_false_2 (f = b)) by done; simpl;
      rewrite !lookup_insert_ne by done;
      destruct (w_fs w !! f) as [[cf|]|] eqn:Hwf; simpl;
      [ by destruct (Hf cf) | | ] ].
  all: rewrite ?lookup_insert_ne by done; rewrite ?Hwf; simpl;
    repeat case_lookup; eexists; reflexivity.
Qed.

Variable c : string.
Hypothesis Hf : w_fs w !! f = Some (File c).
Hypothesis Hne : f ≠ b.
Hypothesis Hb : w_fs w !! b ≠ Some Dir.

Let s_in : filesystem := <[b := File c]> (w_fs w).
Let s_out : filesystem := (body s_in).2.

Ltac enter :=
  exec;
  destruct (w_fs w !! b) as [[cb|]|] eqn:Hwb; try done; simpl;
  rewrite lookup_insert_eq; simpl;
  rewrite (bool_decide_eq_false_2 (f = b)) by done; simpl;
  rewrite !lookup_insert_ne by done; rewrite Hf; simpl;
  rewrite lookup_insert_eq; simpl; rewrite insert_insert_eq; fold s_in.

(** Once the backup is taken, the block runs on the filesystem that holds the
    copy, and the restoring copy and then the removal are called, however the
    block ends and whatever it did. *)
Lemma backed_up_file_trace_entered :
  w_trace (backed_up_file f b (run_block body) w).2 =
  w_trace w ++ temp_file_entry b ++ backup_entry f b
            ++ EvBlock :: backup_exit f b ++ temp_file_exit b.
Proof.
  enter; destruct (body s_in) as [[e|] s2]; simpl;
    repeat case_lookup; trace_eq.
Qed.

(** If the block leaves a file at the backup path and no directory at the
    guarded path, both exit actions take effect: the guarded path receives
    the content of the backup, then the backup is removed, and the guard ends
    as the block ended. *)
Lemma backed_up_file_exit_effect (c' : string) :
  s_out !! b = Some (File c') ->
  s_out !! f ≠ Some Dir ->
  (backed_up_file f b (run_block body) w).1 = outcome (body s_in).1 /\
  w_fs (backed_up_file f b (run_block body) w).2 = delete b (<[f := File c']> s_out).
Proof.
  subst s_out. enter; destruct (body s_in) as [[e|] s2]; simpl; intros H2 Hd.
  all: destruct (s2 !! f) as [[cf|]|] eqn:H2f; try done; simpl.
  all: rewrite (bool_decide_eq_false_2 (b = f)) by done; simpl; rewrite H2; simpl.
  all: rewrite ?H2f; simpl; rewrite lookup_insert_ne by done; rewrite H2; simpl.
  all: split; reflexivity.
Qed.

(** The two exit actions are called after any statements in the place of
    the block, whatever these did. *)
Lemma backed_up_file_trace_entered_gen (m : M unit) (r : result unit) (w1 : world) :
  m (World s_in (w_trace w ++ temp_file_entry b ++ backup_entry f b)) = (r, w1) ->
  w_trace (backed_up_file f b m w).2 =
  w_trace w1 ++ backup_exit f b ++ temp_file_exit b.
Proof.
  unfold temp_file_entry, backup_entry. simpl. intros Hm.
  enter; rewrite <- !app_assoc; simpl; rewrite Hm;
    destruct r; simpl; repeat case_lookup; trace_eq.
Qed.

(** If they raise, so does the guard. *)
Lemma backed_up_file_body_raises (m : M unit) (x : exn) (w1 : world) :
  m (World s_in (w_trace w ++ temp_file_entry b ++ backup_entry f b)) = (Raise x, w1) ->
  exists y, (backed_up_file f b m w).1 = Raise y.
Proof.
  unfold temp_file_entry, backup_entry. simpl. intros Hm.
  enter; rewrite <- !app_assoc; simpl; rewrite Hm; simpl;
    repeat case_lookup; eexists; reflexivity.
Qed.

(** The same for any statements in the place of the block. *)
Lemma backed_up_file_exit_effect_gen (m : M unit) (r : result unit) (w1 : world)
    (c' : string) :
  m (World s_in (w_trace w ++ temp_file_entry b ++ backup_entry f b)) = (r, w1) ->
  w_fs w1 !! b = Some (File c') ->
  w_fs w1 !! f ≠ Some Dir ->
  backed_up_file f b m w =
  (r, World (delete b (<[f := File c']> (w_fs w1)))
            (w_trace w1 ++ backup_exit f b ++ temp_file_exit b)).
Proof.
  unfold temp_file_entry, backup_entry. simpl. intros Hm H2 Hd.
  assert (Hbf : bool_decide (b = f) = false) by by apply bool_decide_eq_false_2.
  enter; rewrite <- !app_assoc; simpl; rewrite Hm;
  destruct r; simpl;
    destruct (w_fs w1 !! f) as [[cf|]|] eqn:H2f; try done; simpl;
    rewrite Hbf; simpl; rewrite H2; simpl; rewrite ?H2f; simpl;
    rewrite lookup_insert_ne by done; rewrite H2; simpl;
    f_equal; f_equal; trace_eq.
Qed.

End BackedUpFile.




(** With a backup path that leads to the guarded file itself, the guard
    destroys the file: the creation of the backup empties it, both copies
    are refused, and the removal deletes it. *)
Lemma backed_up_file_aliased_backup (m : M unit) :
  backed_up_file (sys:=strict) "index.md" "./index.md" m
    (World {["index.md" := File "old"]} []) =
  (Raise (Exn (OSError SameFileError (SysCopy2 "./index.md" "index.md"))
              [OSError SameFileError (SysCopy2 "index.md" "./index.md")]),
   World ∅
         (temp_file_entry "./index.md" ++ backup_entry "index.md" "./index.md"
          ++ backup_exit "index.md" "./index.md" ++ temp_file_exit "./index.md")).
Proof. vm_compute. reflexivity. Qed.

(** C5. Whenever the block of the backup-and-restore guard has run, however
    it ended, what follows it in the history is the restoring copy and then
    the removal of the backup: both are called, in that order. If at that
    point the backup is still a file and no directory stands at the guarded
    path, both take effect: the guarded path receives the content of the
    backup, and the backup is removed. *)
Theorem backed_up_file_exit_order (f b : string) (body : block) (w : world)
    (evs : list event) :
  w_trace (backed_up_file f b (run_block body) w).2 = w_trace w ++ evs ->
  In EvBlock evs ->
  evs = temp_file_entry b ++ backup_entry f b
        ++ EvBlock :: backup_exit f b ++ temp_file_exit b /\
  exists c, w_fs w !! f = Some (File c) /\
    let s_out := (body (<[b := File c]> (w_fs w))).2 in
    forall c', s_out !! b = Some (File c') -> s_out !! f ≠ Some Dir ->
      w_fs (backed_up_file f b (run_block body) w).2 = delete b (<[f := File c']> s_out).
Proof.
  intros Htr Hin.
  assert (Hskip : forall l, w_trace w ++ l = w_trace w ++ evs -> ~ In EvBlock l -> False).
  { intros l Hl Hn. apply app_inv_head in Hl. subst l. auto. }
  destruct (decide (w_fs w !! b = Some Dir)) as [Hb|Hb].
  { rewrite backed_up_file_trace_no_placeholder in Htr by done.
    exfalso. apply (Hskip _ Htr). simpl. intuition discriminate. }
  destruct (decide (f = b)) as [Hfb|Hne].
  { rewrite backed_up_file_trace_no_backup in Htr by auto.
    exfalso. apply (Hskip _ Htr). simpl. intuition discriminate. }
  destruct (w_fs w !! f) as [[c|]|] eqn:Hf.
  - rewrite (backed_up_file_trace_entered f b body w c) in Htr by done.
    apply app_inv_head in Htr. split; [done|].
    exists c. split; [done|]. intros s_out c' Hs Hd.
    by apply (backed_up_file_exit_effect f b body w c Hf Hne Hb c').
  - rewrite backed_up_file_trace_no_backup in Htr
      by (done || right; intros c; rewrite Hf; discriminate).
    exfalso. apply (Hskip _ Htr). simpl. intuition discriminate.
  - rewrite backed_up_file_trace_no_backup in Htr
      by (done || right; intros c; rewrite Hf; discriminate).
    exfalso. apply (Hskip _ Htr). simpl. intuition discriminate.
Qed.

Lemma backed_up_file_exit_order_witness :
  let w := World {["index.md" := File "old"]} [] in
  let body : block :=
    fun s => (Some (BlockError "build failed"), <["index.md" := File "new"]> s) in
  exists c, w_fs w !! "index.md" = Some (File c) /\
    let s_out := (body (<["index.md.bak" := File c]> (w_fs w))).2 in
    forall c', s_out !! "index.md.bak" = Some (File c') ->
      s_out !! "index.md" ≠ Some Dir ->
      w_fs (backed_up_file "index.md" "index.md.bak" (run_block body) w).2 =
      delete "index.md.bak" (<["index.md" := File c']> s_out).
Proof.
  intros w body.
  apply (backed_up_file_exit_order "index.md" "index.md.bak" body w
    (temp_file_entry "index.md.bak" ++ backup_entry "index.md" "index.md.bak"
     ++ EvBlock :: backup_exit "index.md" "index.md.bak"
     ++ temp_file_exit "index.md.bak")).
  - vm_compute. reflexivity.
  - simpl. auto 10.
Defined.

(** C2. With no file at the guarded path the entry copy fails and its error
    reaches the caller; the block is skipped and the backup is removed. The
    restoring copy is called nevertheless, and puts the empty placeholder at
    the guarded path, where no file was before. *)
Theorem backed_up_file_restore_after_failed_backup (body : block) :
  backed_up_file "docs/index.md" "index.md_original" (run_block body)
    (World {["README.md" := File "new"]} []) =
  (Raise (Exn (OSError FileNotFoundError
                 (SysCopy2 "docs/index.md" "index.md_original")) []),
   World (<["docs/index.md" := File ""]> {["README.md" := File "new"]})
         (temp_file_entry "index.md_original"
          ++ backup_entry "docs/index.md" "index.md_original"
          ++ backup_exit "docs/index.md" "index.md_original"
          ++ temp_file_exit "index.md_original")).
Proof. vm_compute. reflexivity. Qed.

(** ** The tasks *)

Lemma index_path_not_backup : index_path ≠ index_backup_path.
Proof. discriminate. Qed.

Section Mkdocs.

Variable sh : string -> filesystem -> Z * filesystem.
Variables (clean : bool) (w : world).

Let cmd : string := build_command clean.

Lemma extends_run (command : string) (echo : bool) : extends (run sh command echo).
Proof.
  unfold run. apply extends_bind; [destruct echo; auto with extends|intros _].
  apply extends_bind; [auto with extends|intros _].
  apply extends_bind; [auto with extends|intros s].
  destruct (sh command s) as [code s'].
  apply extends_bind; [auto with extends|intros _].
  destruct (code =? 0)%Z; auto with extends.
Qed.

(** The backup of the index is created first and removed last, in every run
    of the task. *)
Lemma mkdocs_brackets :
  exists mid,
    w_trace (mkdocs sh clean w).2 =
    w_trace w ++ temp_file_entry index_backup_path ++ mid
              ++ temp_file_exit index_backup_path.
Proof.
  unfold mkdocs, backed_up_file. apply temp_file_brackets.
  pose proof extends_run. auto 10 with extends.
Qed.

(** A run that reaches the build command: the index and the README are
    files, and no directory stands at the backup path. *)
Variables (c r : string).
Hypothesis Hindex : w_fs w !! index_path = Some (File c).
Hypothesis Hreadme : w_fs w !! "README.md" = Some (File r).
Hypothesis Hbackup : w_fs w !! index_backup_path ≠ Some Dir.

(** The filesystem the build command works on: the backup holds the index,
    the index holds the README. *)
Let s_build : filesystem :=
  <[index_path := File r]> (<[index_backup_path := File c]> (w_fs w)).

Let code : Z := (sh cmd s_build).1.
Let s_out : filesystem := (sh cmd s_build).2.

Let build_result : result unit :=
  if (code =? 0)%Z then Ok tt
  else Raise (Exn (OSError (Failure code) (SysRun cmd)) []).

Lemma mkdocs_block (t : list event) :
  (shutil.copy2 "README.md" index_path ;; run sh cmd true)
    (World (<[index_backup_path := File c]> (w_fs w)) t) =
  (build_result,
   World s_out (t ++ [EvCall (SysCopy2 "README.md" index_path); EvEcho cmd;
                      EvCall (SysRun cmd)])).
Proof.
  subst build_result code s_out s_build.
  pose proof index_path_not_backup as Hne.
  assert (Hne' : index_backup_path ≠ index_path) by done.
  unfold run. exec.
  rewrite !lookup_insert_ne by done. rewrite ?Hindex, ?Hreadme. simpl.
  rewrite ?lookup_insert_ne by done. rewrite ?Hindex, ?Hreadme. simpl.
  destruct (sh cmd _) as [k s']. simpl.
  destruct (k =? 0)%Z; simpl; f_equal; f_equal; trace_eq.
Qed.

(** If the build command leaves a file at the backup path and no directory
    at the index, the task ends as the command ended, with the content of
    the backup in the index and the backup removed. *)
Lemma mkdocs_run (c' : string) :
  s_out !! index_backup_path = Some (File c') ->
  s_out !! index_path ≠ Some Dir ->
  mkdocs sh clean w =
  (build_result,
   World (delete index_backup_path (<[index_path := File c']> s_out))
         (w_trace w ++ temp_file_entry index_backup_path
            ++ backup_entry index_path index_backup_path
            ++ [EvCall (SysCopy2 "README.md" index_path); EvEcho cmd;
                EvCall (SysRun cmd)]
            ++ backup_exit index_path index_backup_path
            ++ temp_file_exit index_backup_path)).
Proof.
  intros Hs Hd. unfold mkdocs. fold (build_command clean). fold cmd.
  rewrite (backed_up_file_exit_effect_gen index_path index_backup_path w c
             Hindex index_path_not_backup Hbackup _ _ _ c' (mkdocs_block _)
             Hs Hd).
  simpl. f_equal. f_equal. trace_eq.
Qed.

(** Whatever the build command did to the filesystem, the history of the
    run is the same. *)
Lemma mkdocs_trace :
  w_trace (mkdocs sh clean w).2 =
  w_trace w ++ temp_file_entry index_backup_path
    ++ backup_entry index_path index_backup_path
    ++ [EvCall (SysCopy2 "README.md" index_path); EvEcho cmd; EvCall (SysRun cmd)]
    ++ backup_exit index_path index_backup_path
    ++ temp_file_exit index_backup_path.
Proof.
  unfold mkdocs. fold (build_command clean). fold cmd.
  rewrite (backed_up_file_trace_entered_gen index_path index_backup_path w c
             Hindex index_path_not_backup Hbackup _ _ _ (mkdocs_block _)).
  simpl. trace_eq.
Qed.

Lemma mkdocs_build_failure_raises :
  code ≠ 0%Z -> exists y, (mkdocs sh clean w).1 = Raise y.
Proof.
  intros Hc. unfold mkdocs. fold (build_command clean). fold cmd.
  pose proof (mkdocs_block (w_trace w ++ temp_file_entry index_backup_path
                ++ backup_entry index_path index_backup_path)) as Hm.
  subst build_result. simpl in Hm.
  destruct (Z.eqb_spec code 0) as [|_]; [done|].
  exact (backed_up_file_body_raises index_path index_backup_path w c
           Hindex index_path_not_backup Hbackup _ _ _ Hm).
Qed.

End Mkdocs.

Lemma mkdocs_block_no_readme sh (cmd c : string) (s : filesystem) (t : list event) :
  s !! index_path = Some (File c) ->
  (forall r, s !! "README.md" ≠ Some (File r)) ->
  exists x s1,
    (shutil.copy2 "README.md" index_path ;; run sh cmd true) (World s t)
    = (Raise x, World s1 (t ++ [EvCall (SysCopy2 "README.md" index_path)])).
Proof.
  intros Hi Hr. exec. rewrite Hi. simpl.
  destruct (s !! "README.md") as [[r|]|] eqn:Hs; simpl.
  - by destruct (Hr r).
  - eexists _, _. reflexivity.
  - eexists _, _. reflexivity.
Qed.

(** A run of the task that ends without an error went all the way: the index
    and the README were files, the backup path was free of a directory, and
    the build command exited with zero. *)
Lemma mkdocs_ok_inv sh (clean : bool) (w w1 : world) :
  mkdocs sh clean w = (Ok tt, w1) ->
  exists c r,
    w_fs w !! index_path = Some (File c) /\
    w_fs w !! "README.md" = Some (File r) /\
    w_fs w !! index_backup_path ≠ Some Dir /\
    (sh (build_command clean)
        (<[index_path := File r]> (<[index_backup_path := File c]> (w_fs w)))).1
    = 0%Z.
Proof.
  intros Hok.
  assert (Hno : forall y, (mkdocs sh clean w).1 ≠ Raise y)
    by (intros y; rewrite Hok; discriminate).
  destruct (decide (w_fs w !! index_backup_path = Some Dir)) as [Hb|Hb].
  { exfalso. unfold mkdocs, backed_up_file in Hok.
    rewrite temp_file_creation_raises in Hok by done. discriminate. }
  destruct (w_fs w !! index_path) as [[c|]|] eqn:Hi.
  2,3: exfalso;
    destruct (backed_up_file_no_backup_raises index_path index_backup_path w
                (shutil.copy2 "README.md" index_path ;;
                 run sh (build_command clean) true) Hb) as [y Hy];
    [right; intros c; rewrite Hi; discriminate | exact (Hno y Hy)].
  destruct (w_fs w !! "README.md") as [[r|]|] eqn:Hr.
  2,3: exfalso;
    destruct (mkdocs_block_no_readme sh (build_command clean) c
                (<[index_backup_path := File c]> (w_fs w))
                (w_trace w ++ temp_file_entry index_backup_path
                   ++ backup_entry index_path index_backup_path))
      as (x & s' & Hx);
    [ by rewrite lookup_insert_ne by done
    | intros r; rewrite lookup_insert_ne by done; rewrite Hr; discriminate
    | destruct (backed_up_file_body_raises index_path index_backup_path w c
                  Hi index_path_not_backup Hb _ _ _ Hx) as [y Hy];
      exact (Hno y Hy) ].
  exists c, r. repeat split; try done.
  destruct (Z.eq_dec
    (sh (build_command clean)
        (<[index_path := File r]> (<[index_backup_path := File c]> (w_fs w)))).1
    0%Z) as [|Hc]; [done|].
  destruct (mkdocs_build_failure_raises sh clean w c r Hi Hr Hb Hc) as [y Hy].
  by destruct (Hno y).
Qed.

(** The build command is called only in such a run: the index and the README
    are files and no directory stands at the backup path. *)
Lemma mkdocs_reaches_build sh (clean : bool) (w : world) (evs : list event) :
  w_trace (mkdocs sh clean w).2 = w_trace w ++ evs ->
  In (EvCall (SysRun (build_command clean))) evs ->
  exists c r,
    w_fs w !! index_path = Some (File c) /\
    w_fs w !! "README.md" = Some (File r) /\
    w_fs w !! index_backup_path ≠ Some Dir.
Proof.
  intros Htr Hin.
  assert (Hskip : forall l, w_trace w ++ l = w_trace w ++ evs ->
                            ~ In (EvCall (SysRun (build_command clean))) l -> False).
  { intros l Hl Hn. apply app_inv_head in Hl. subst l. auto. }
  unfold mkdocs in Htr. fold (build_command clean) in Htr.
  destruct (decide (w_fs w !! index_backup_path = Some Dir)) as [Hb|Hb].
  { rewrite backed_up_file_trace_no_placeholder in Htr by done.
    exfalso. apply (Hskip _ Htr). simpl. intuition discriminate. }
  destruct (w_fs w !! index_path) as [[c|]|] eqn:Hi.
  2,3: rewrite backed_up_file_trace_no_backup in Htr
         by (done || right; intros c; rewrite Hi; discriminate);
       exfalso; apply (Hskip _ Htr); simpl; intuition discriminate.
  destruct (w_fs w !! "README.md") as [[r|]|] eqn:Hr.
  2,3: exfalso;
    destruct (mkdocs_block_no_readme sh (build_command clean) c
                (<[index_backup_path := File c]> (w_fs w))
                (w_trace w ++ temp_file_entry index_backup_path
                   ++ backup_entry index_path index_backup_path))
      as (x & s' & Hx);
    [ by rewrite lookup_insert_ne by done
    | intros r; rewrite lookup_insert_ne by done; rewrite Hr; discriminate
    | rewrite (backed_up_file_trace_entered_gen index_path index_backup_path w c
                 Hi index_path_not_backup Hb _ _ _ Hx) in Htr;
      simpl in Htr; rewrite <- !app_assoc in Htr;
      apply (Hskip _ Htr); simpl; intuition discriminate ].
  by exists c, r.
Qed.

(** C3. Take a run of the "build site pages" task that reaches the build
    command (the index and the README are files, no directory stands at the
    backup path) in which the command exits with a non-zero code. If the
    command leaves the backup as it is and puts no directory at the index,
    the task fails with the error of the command, the index holds again the
    content it had before the task started, and the backup is gone. *)
Theorem mkdocs_build_failure_restores_index sh (clean : bool) (w : world)
    (c r : string) :
  w_fs w !! index_path = Some (File c) ->
  w_fs w !! "README.md" = Some (File r) ->
  w_fs w !! index_backup_path ≠ Some Dir ->
  let s_build :=
    <[index_path := File r]> (<[index_backup_path := File c]> (w_fs w)) in
  let code := (sh (build_command clean) s_build).1 in
  let s_out := (sh (build_command clean) s_build).2 in
  code ≠ 0%Z ->
  s_out !! index_backup_path = Some (File c) ->
  s_out !! index_path ≠ Some Dir ->
  exists w',
    mkdocs sh clean w =
      (Raise (Exn (OSError (Failure code) (SysRun (build_command clean))) []),
       w') /\
    w_fs w' !! index_path = Some (File c) /\
    w_fs w' !! index_backup_path = None.
Proof.
  intros Hi Hr Hb s_build code s_out Hc Hs Hd.
  rewrite (mkdocs_run sh clean w c r Hi Hr Hb c Hs Hd).
  fold s_build code s_out.
  destruct (Z.eqb_spec code 0) as [|_]; [done|].
  eexists. split; [reflexivity|]. simpl.
  pose proof index_path_not_backup.
  split; [by rewrite lookup_delete_ne, lookup_insert_eq|apply lookup_delete_eq].
Qed.

Lemma mkdocs_build_failure_restores_index_witness :
  exists w',
    mkdocs (sh_site 1) false (World repo []) =
      (Raise (Exn (OSError (Failure 1) (SysRun "mkdocs build")) []), w') /\
    w_fs w' !! "docs/index.md" = Some (File "old") /\
    w_fs w' !! "index.md_original" = None.
Proof.
  apply (mkdocs_build_failure_restores_index (sh_site 1) false (World repo [])
           "old" "new").
  - reflexivity.
  - reflexivity.
  - vm_compute. discriminate.
  - vm_compute. discriminate.
  - vm_compute. reflexivity.
  - vm_compute. discriminate.
Defined.

(** One successful run of the task leaves the index as it found it, provided
    the shell's commands leave the backup alone and put no directory at the
    index. *)
Lemma mkdocs_ok_preserves_index sh (clean : bool) (w w1 : world) (c : string) :
  (forall cmd s, (sh cmd s).2 !! index_backup_path = s !! index_backup_path) ->
  (forall cmd s, s !! index_path ≠ Some Dir -> (sh cmd s).2 !! index_path ≠ Some Dir) ->
  w_fs w !! index_path = Some (File c) ->
  mkdocs sh clean w = (Ok tt, w1) ->
  w_fs w1 !! index_path = Some (File c).
Proof.
  intros Hframe Hnodir Hi Hok.
  destruct (mkdocs_ok_inv sh clean w w1 Hok) as (c0 & r & Hi' & Hr & Hb & Hcode).
  rewrite Hi in Hi'. injection Hi' as <-.
  pose proof index_path_not_backup as Hne.
  rewrite (mkdocs_run sh clean w c r Hi Hr Hb c) in Hok.
  - injection Hok as _ <-. simpl. by rewrite lookup_delete_ne, lookup_insert_eq.
  - rewrite Hframe. by rewrite lookup_insert_ne, lookup_insert_eq.
  - apply Hnodir. by rewrite lookup_insert_eq.
Qed.

(** C9. Two runs of the "build site pages" task in a row, both ending
    without an error: after the first and after the second the index holds
    the content it had before the first, the shell's commands being assumed
    to leave the backup alone and to put no directory at the index. *)
Theorem mkdocs_twice_preserves_index sh (clean1 clean2 : bool) (w w1 w2 : world)
    (c : string) :
  (forall cmd s, (sh cmd s).2 !! index_backup_path = s !! index_backup_path) ->
  (forall cmd s, s !! index_path ≠ Some Dir -> (sh cmd s).2 !! index_path ≠ Some Dir) ->
  w_fs w !! index_path = Some (File c) ->
  mkdocs sh clean1 w = (Ok tt, w1) ->
  mkdocs sh clean2 w1 = (Ok tt, w2) ->
  w_fs w1 !! index_path = Some (File c) /\ w_fs w2 !! index_path = Some (File c).
Proof.
  intros Hframe Hnodir Hi H1 H2.
  assert (Hi1 : w_fs w1 !! index_path = Some (File c))
    by exact (mkdocs_ok_preserves_index sh clean1 w w1 c Hframe Hnodir Hi H1).
  split; [exact Hi1|].
  exact (mkdocs_ok_preserves_index sh clean2 w1 w2 c Hframe Hnodir Hi1 H2).
Qed.

Lemma sh_site_frames (k : Z) (p : string) :
  p ≠ "site/index.html" ->
  forall cmd s, (sh_site k cmd s).2 !! p = s !! p.
Proof. intros Hp cmd s. unfold sh_site. simpl. by rewrite lookup_insert_ne. Qed.

Lemma mkdocs_twice_preserves_index_witness :
  let w1 := (mkdocs (sh_site 0) false (World repo [])).2 in
  let w2 := (mkdocs (sh_site 0) true w1).2 in
  w_fs w1 !! index_path = Some (File "old") /\
  w_fs w2 !! index_path = Some (File "old").
Proof.
  intros w1 w2.
  apply (mkdocs_twice_preserves_index (sh_site 0) false true (World repo []) w1 w2).
  - apply sh_site_frames. discriminate.
  - intros cmd s Hs. rewrite sh_site_frames by discriminate. exact Hs.
  - reflexivity.
  - vm_compute. reflexivity.
  - vm_compute. reflexivity.
Defined.

Lemma site_unfold sh (w : world) :
  site sh w =
  match mkdocs sh true w with
  | (Ok _, w1) => api sh w1
  | (Raise x, w1) => (Raise x, w1)
  end.
Proof.
  unfold site, invoke_task. simpl. unfold bind, ret.
  destruct (mkdocs sh true w) as [[[]|x] w1]; [|reflexivity].
  destruct (api sh w1) as [[[]|y] w2]; reflexivity.
Qed.

Lemma api_trace sh (w : world) :
  w_trace (api sh w).2 =
  w_trace w ++ [EvEcho "lein codox"; EvCall (SysRun "lein codox")].
Proof.
  unfold api, lein, run. exec.
  destruct (sh _ _) as [k s]. simpl. destruct (k =? 0)%Z; simpl; trace_eq.
Qed.

(** C7 (as amended). The "build full site" task first runs the "build site
    pages" task with the clean flag on. If that ends without an error, the
    build command was run with [--clean], and the API-reference build is
    run next; if it raises, the task ends there with that error and the
    API-reference build is not attempted. *)
Theorem site_runs_mkdocs_then_api sh (w : world) :
  match mkdocs sh true w with
  | (Ok _, w1) =>
      w_trace w1 =
        w_trace w ++ temp_file_entry index_backup_path
          ++ backup_entry index_path index_backup_path
          ++ [EvCall (SysCopy2 "README.md" index_path);
              EvEcho "mkdocs build --clean";
              EvCall (SysRun "mkdocs build --clean")]
          ++ backup_exit index_path index_backup_path
          ++ temp_file_exit index_backup_path /\
      site sh w = api sh w1 /\
      w_trace (site sh w).2 =
        w_trace w1 ++ [EvEcho "lein codox"; EvCall (SysRun "lein codox")]
  | (Raise x, w1) => site sh w = (Raise x, w1)
  end.
Proof.
  rewrite site_unfold.
  destruct (mkdocs sh true w) as [[[]|x] w1] eqn:Hm; [|reflexivity].
  split; [|split; [reflexivity|apply api_trace]].
  destruct (mkdocs_ok_inv sh true w w1 Hm) as (c & r & Hi & Hr & Hb & _).
  pose proof (mkdocs_trace sh true w c r Hi Hr Hb) as Ht.
  rewrite Hm in Ht. exact Ht.
Qed.

(** C7 (as stated) fails when the static-site build fails: the task ends
    with the error of the build command and the API-reference build is never
    started. *)
Lemma site_skips_api_after_failed_build :
  let end_ := site (sh_site 1) (World repo []) in
  end_.1 = Raise (Exn (OSError (Failure 1)
                         (SysRun "mkdocs build --clean")) []) /\
  In (EvCall (SysRun "mkdocs build --clean")) (w_trace end_.2) /\
  ~ In (EvCall (SysRun "lein codox")) (w_trace end_.2).
Proof.
  vm_compute. split; [reflexivity|]. split; [auto 10|].
  intuition discriminate.
Qed.

(** C8 (as amended). The backup that the "build site pages" task creates
    first and removes last is at the fixed relative path
    [index.md_original]: a path without a directory part, so the file lies
    in the working directory, next to the [docs] directory, and not next to
    [docs/index.md]. *)
Theorem mkdocs_backup_location sh (clean : bool) (w : world) :
  index_backup_path = "index.md_original" /\
  os_path.dirname index_backup_path = "" /\
  os_path.dirname index_path = "docs" /\
  sibling index_backup_path (os_path.dirname index_path) /\
  exists mid,
    w_trace (mkdocs sh clean w).2 =
    w_trace w ++ temp_file_entry index_backup_path ++ mid
              ++ temp_file_exit index_backup_path.
Proof.
  repeat split; try reflexivity. apply mkdocs_brackets.
Qed.

(** C8 (as stated) fails: the backup path and the index do not lie in the
    same directory. *)
Lemma mkdocs_backup_not_sibling_of_index :
  ~ sibling index_backup_path index_path.
Proof. unfold sibling. vm_compute. discriminate. Qed.

(** * Further properties of the helpers and the tasks *)

(** ** The placeholder guard *)



(** X2. If the block leaves the placeholder in place, the guard is
    transparent: it ends exactly as the block ended, an exception of the
    block reaching the caller unchanged, and the filesystem is the one the
    block left, without the placeholder. *)
Theorem temp_file_transparent (p c' : string) (body : block) (w : world) :
  w_fs w !! p ≠ Some Dir ->
  let s_in := <[p := File ""]> (w_fs w) in
  (body s_in).2 !! p = Some (File c') ->
  temp_file p (run_block body) w =
  (outcome (body s_in).1,
   World (delete p (body s_in).2)
         (w_trace w ++ temp_file_entry p ++ EvBlock :: temp_file_exit p)).
Proof.
  intros Hd s_in Hs.
  destruct (temp_file_removes p body w c' Hd Hs) as [Hr Hfs].
  pose proof (temp_file_trace p body w Hd) as Ht.
  destruct (temp_file p (run_block body) w) as [r [s t]]. simpl in *.
  by subst.
Qed.

Lemma temp_file_transparent_witness :
  temp_file "scratch" (run_block (fun s => (Some (BlockError "boom"), s)))
    (World {["README.md" := File "new"]} []) =
  (Raise (Exn (BlockError "boom") []),
   World {["README.md" := File "new"]}
         (temp_file_entry "scratch" ++ EvBlock :: temp_file_exit "scratch")).
Proof.
  rewrite (temp_file_transparent "scratch" "" (fun s => (Some (BlockError "boom"), s))
             (World {["README.md" := File "new"]} [])).
  - vm_compute. reflexivity.
  - vm_compute. discriminate.
  - vm_compute. reflexivity.
Defined.

(** X3. If the block removes the placeholder itself, the guard's own removal
    raises [FileNotFoundError]: that is the error the caller receives, even
    when the block returned normally, an exception of the block being kept
    as its context. The filesystem is as the block left it. *)
Theorem temp_file_block_removes_placeholder (p : string) (body : block) (w : world) :
  w_fs w !! p ≠ Some Dir ->
  let s_in := <[p := File ""]> (w_fs w) in
  (body s_in).2 !! p = None ->
  temp_file p (run_block body) w =
  (Raise (Exn (OSError FileNotFoundError (SysRemove p))
              (match (body s_in).1 with None => [] | Some e => [e] end)),
   World (body s_in).2
         (w_trace w ++ temp_file_entry p ++ EvBlock :: temp_file_exit p)).
Proof.
  intros Hd s_in. exec.
  destruct (w_fs w !! p) as [[c|]|] eqn:Hp; try done; simpl; fold s_in;
    destruct (body s_in) as [[e|] s2]; simpl; intros H2; rewrite H2; simpl;
    unfold during; simpl; f_equal; f_equal; trace_eq.
Qed.

Lemma temp_file_block_removes_placeholder_witness :
  (temp_file "scratch" (run_block (fun s => (None, delete "scratch" s)))
     (World {["README.md" := File "new"]} [])).1 =
  Raise (Exn (OSError FileNotFoundError (SysRemove "scratch")) []).
Proof.
  rewrite (temp_file_block_removes_placeholder "scratch"
             (fun s => (None, delete "scratch" s))
             (World {["README.md" := File "new"]} [])).
  - reflexivity.
  - vm_compute. discriminate.
  - vm_compute. reflexivity.
Defined.

(** ** The backup-and-restore guard *)


Lemma backed_up_file_missing_file_gen {sys : OS} (f b : string) (m : M unit)
    (w : world) :
  let s_made := <[resolve b := File ""]> (w_fs w) in
  resolve f ≠ resolve b ->
  w_fs w !! resolve f = None ->
  w_fs w !! resolve b ≠ Some Dir ->
  refuses (w_fs w) Writing b = None ->
  refuses s_made Reading f = None ->
  refuses s_made Reading b = None ->
  refuses s_made Unlinking b = None ->
  refuses (<[resolve f := File ""]> s_made) Unlinking b = None ->
  let entry_error := OSError FileNotFoundError (SysCopy2 f b) in
  let history := w_trace w ++ temp_file_entry b ++ backup_entry f b
                   ++ backup_exit f b ++ temp_file_exit b in
  backed_up_file f b m w =
  match refuses s_made Writing f with
  | None =>
      (Raise (Exn entry_error []),
       World (<[resolve f := File ""]> (delete (resolve b) (w_fs w))) history)
  | Some kind =>
      (Raise (Exn (OSError kind (SysCopy2 b f)) [entry_error]),
       World (delete (resolve b) (w_fs w)) history)
  end.
Proof.
  intros s_made Hne Hf Hdb Hwb Hrf Hrb Hub Hub' entry_error history.
  subst s_made.
  assert (Hne' : resolve b ≠ resolve f) by congruence.
  unfold backed_up_file, temp_file, try_finally, bind, print, log. simpl.
  rewrite (open_w_close_ok b) by done. simpl.
  rewrite (copy2_missing f b)
    by (simpl; first [exact Hrf | by rewrite lookup_insert_ne]).
  simpl.
  destruct (refuses (<[resolve b := File ""]> (w_fs w)) Writing f)
    as [kind|] eqn:Hr.
  - rewrite (copy2_refused b f "" kind); simpl;
      [ | rewrite lookup_insert_ne, Hf by done; discriminate | done | done
        | apply lookup_insert_eq | exact Hr ].
    rewrite remove_run. simpl. rewrite Hub, lookup_insert_eq. simpl.
    rewrite delete_insert_eq. unfold during. simpl.
    f_equal. f_equal. subst history. trace_eq.
  - rewrite (copy2_ok b f ""); simpl;
      [ | rewrite lookup_insert_ne, Hf by done; discriminate | done | done
        | apply lookup_insert_eq | exact Hr ].
    rewrite remove_run. simpl.
    rewrite Hub', lookup_insert_ne, lookup_insert_eq by done. simpl.
    rewrite delete_insert_ne, delete_insert_eq by done.
    f_equal. f_equal. subst history. trace_eq.
Qed.

(** X5. With nothing at the guarded path (the backup path leading elsewhere,
    to a place where the system lets the placeholder be created, read and
    removed) the entry copy raises [FileNotFoundError] and the guarded
    statements are skipped, but the restoring copy is called all the same,
    with the empty placeholder as its source. Where the operating system
    lets a file be created at the guarded path, an empty file appears there
    and the entry error reaches the caller; where it refuses (the parent
    directory is missing, say) nothing appears and the caller receives the
    error of the restoring copy, with the entry error as its context. The
    backup path is cleared either way. *)
Theorem backed_up_file_missing_file {sys : OS} (f b : string) (m : M unit)
    (w : world) :
  let s_made := <[resolve b := File ""]> (w_fs w) in
  resolve f ≠ resolve b ->
  w_fs w !! resolve f = None ->
  w_fs w !! resolve b ≠ Some Dir ->
  refuses (w_fs w) Writing b = None ->
  refuses s_made Reading f = None ->
  refuses s_made Reading b = None ->
  refuses s_made Unlinking b = None ->
  refuses (<[resolve f := File ""]> s_made) Unlinking b = None ->
  let entry_error := OSError FileNotFoundError (SysCopy2 f b) in
  let history := w_trace w ++ temp_file_entry b ++ backup_entry f b
                   ++ backup_exit f b ++ temp_file_exit b in
  backed_up_file f b m w =
  match refuses s_made Writing f with
  | None =>
      (Raise (Exn entry_error []),
       World (<[resolve f := File ""]> (delete (resolve b) (w_fs w))) history)
  | Some kind =>
      (Raise (Exn (OSError kind (SysCopy2 b f)) [entry_error]),
       World (delete (resolve b) (w_fs w)) history)
  end.
Proof. apply backed_up_file_missing_file_gen. Qed.

Lemma backed_up_file_missing_file_witness :
  let no_docs := World {["index.md_original" := File "mine"]} [] in
  let with_docs :=
    World (<["docs" := Dir]> {["index.md_original" := File "mine"]}) [] in
  let run := backed_up_file (sys:=strict) "docs/index.md" "index.md_original"
               (ret tt) in
  (run no_docs).1 =
    Raise (Exn (OSError FileNotFoundError
                  (SysCopy2 "index.md_original" "docs/index.md"))
               [OSError FileNotFoundError
                  (SysCopy2 "docs/index.md" "index.md_original")]) /\
  w_fs (run no_docs).2 = ∅ /\
  (run with_docs).1 =
    Raise (Exn (OSError FileNotFoundError
                  (SysCopy2 "docs/index.md" "index.md_original")) []) /\
  w_fs (run with_docs).2 = <["docs/index.md" := File ""]> {["docs" := Dir]}.
Proof.
  intros no_docs with_docs run. subst run.
  rewrite (backed_up_file_missing_file (sys:=strict) "docs/index.md"
             "index.md_original" (ret tt) no_docs),
    (backed_up_file_missing_file (sys:=strict) "docs/index.md"
       "index.md_original" (ret tt) with_docs).
  - repeat split; vm_compute; reflexivity.
  - discriminate.
  - reflexivity.
  - vm_compute. discriminate.
  - reflexivity.
  - reflexivity.
  - reflexivity.
  - reflexivity.
  - reflexivity.
  - discriminate.
  - reflexivity.
  - vm_compute. discriminate.
  - reflexivity.
  - reflexivity.
  - reflexivity.
  - reflexivity.
  - reflexivity.
Defined.

(** X6. Called with the backup path equal to the guarded path, the guard
    destroys the file it was to protect: the placeholder is created over it,
    both copies are refused with [SameFileError] (the second reaches the
    caller, the first is its context), the guarded statements are skipped,
    and the final removal deletes the path. *)
Theorem backed_up_file_same_path (p : string) (m : M unit) (w : world) :
  w_fs w !! p ≠ Some Dir ->
  backed_up_file p p m w =
  (Raise (Exn (OSError SameFileError (SysCopy2 p p))
              [OSError SameFileError (SysCopy2 p p)]),
   World (delete p (w_fs w))
         (w_trace w ++ temp_file_entry p ++ backup_entry p p
            ++ backup_exit p p ++ temp_file_exit p)).
Proof.
  intros Hp.
  assert (Hfs : delete p (<[p := File ""]> (w_fs w)) = delete p (w_fs w))
    by apply delete_insert_eq.
  rewrite <- Hfs. exec.
  destruct (w_fs w !! p) as [[c|]|] eqn:Hwp; try done; simpl;
    rewrite !lookup_insert_eq; simpl;
    rewrite !bool_decide_eq_true_2 by (done || by rewrite lookup_insert_eq);
    simpl; rewrite !lookup_insert_eq; simpl;
    rewrite !bool_decide_eq_true_2 by (done || by rewrite lookup_insert_eq);
    simpl; rewrite !lookup_insert_eq; simpl;
    unfold during; simpl; f_equal; f_equal; trace_eq.
Qed.

Lemma backed_up_file_same_path_witness :
  w_fs (backed_up_file "index.md" "index.md" (ret tt)
          (World {["index.md" := File "old"]} [])).2 = ∅.
Proof.
  rewrite (backed_up_file_same_path "index.md").
  - vm_compute. reflexivity.
  - vm_compute. discriminate.
Defined.

(** X7. If the block removes the backup, the guarded file is not restored:
    the restoring copy raises [FileNotFoundError], then the removal of the
    backup raises [FileNotFoundError] too and reaches the caller, with the
    error of the copy and, if the block raised, the error of the block as
    its context. The filesystem stays as the block left it. *)
Theorem backed_up_file_block_removes_backup (f b c : string) (body : block)
    (w : world) :
  w_fs w !! f = Some (File c) ->
  f ≠ b ->
  w_fs w !! b ≠ Some Dir ->
  let s_in := <[b := File c]> (w_fs w) in
  (body s_in).2 !! b = None ->
  backed_up_file f b (run_block body) w =
  (Raise (Exn (OSError FileNotFoundError (SysRemove b))
              (OSError FileNotFoundError (SysCopy2 b f)
               :: match (body s_in).1 with None => [] | Some e => [e] end)),
   World (body s_in).2
         (w_trace w ++ temp_file_entry b ++ backup_entry f b
            ++ EvBlock :: backup_exit f b ++ temp_file_exit b)).
Proof.
  intros Hf Hne Hb s_in. exec.
  destruct (w_fs w !! b) as [[cb|]|] eqn:Hwb; try done; simpl;
    rewrite lookup_insert_eq; simpl;
    rewrite (bool_decide_eq_false_2 (f = b)) by done; simpl;
    rewrite !lookup_insert_ne by done; rewrite Hf; simpl;
    rewrite lookup_insert_eq; simpl; rewrite insert_insert_eq; fold s_in;
    destruct (body s_in) as [[e|] s2]; simpl; intros H2;
    rewrite (bool_decide_eq_false_2 (is_Some (s2 !! b)))
      by (rewrite H2; by intros [? ?]);
    rewrite andb_false_r; simpl; rewrite H2; simpl; rewrite H2; simpl;
    unfold during; simpl; f_equal; f_equal; trace_eq.
Qed.

Lemma backed_up_file_block_removes_backup_witness :
  let body : block := fun s => (None, <["index.md" := File "new"]> (delete "index.md.bak" s)) in
  let end_ := backed_up_file "index.md" "index.md.bak" (run_block body)
                (World {["index.md" := File "old"]} []) in
  end_.1 = Raise (Exn (OSError FileNotFoundError (SysRemove "index.md.bak"))
                      [OSError FileNotFoundError (SysCopy2 "index.md.bak" "index.md")]) /\
  w_fs end_.2 !! "index.md" = Some (File "new").
Proof.
  intros body end_. subst end_.
  rewrite (backed_up_file_block_removes_backup "index.md" "index.md.bak" "old" body).
  - split; vm_compute; reflexivity.
  - reflexivity.
  - discriminate.
  - vm_compute. discriminate.
  - vm_compute. reflexivity.
Defined.

(** ** The "build site pages" task *)

(** X8. A run of the task in which everything goes well: the index and the
    README are files, the build command exits with zero, leaves the backup
    as it is and puts no directory at the index. The command then works on a
    filesystem whose index holds the content of the README while the backup
    holds the content of the index; the task ends without an error, the
    index holds its former content again, the backup is gone, and every
    other path is as the command left it. *)
Theorem mkdocs_success sh (clean : bool) (w : world) (c r : string) :
  w_fs w !! index_path = Some (File c) ->
  w_fs w !! "README.md" = Some (File r) ->
  w_fs w !! index_backup_path ≠ Some Dir ->
  let s_build :=
    <[index_path := File r]> (<[index_backup_path := File c]> (w_fs w)) in
  let code := (sh (build_command clean) s_build).1 in
  let s_out := (sh (build_command clean) s_build).2 in
  code = 0%Z ->
  s_out !! index_backup_path = Some (File c) ->
  s_out !! index_path ≠ Some Dir ->
  s_build !! index_path = Some (File r) /\
  s_build !! index_backup_path = Some (File c) /\
  mkdocs sh clean w =
  (Ok tt,
   World (delete index_backup_path (<[index_path := File c]> s_out))
         (w_trace w ++ temp_file_entry index_backup_path
            ++ backup_entry index_path index_backup_path
            ++ [EvCall (SysCopy2 "README.md" index_path);
                EvEcho (build_command clean);
                EvCall (SysRun (build_command clean))]
            ++ backup_exit index_path index_backup_path
            ++ temp_file_exit index_backup_path)).
Proof.
  intros Hi Hr Hb s_build code s_out Hc Hs Hd.
  pose proof index_path_not_backup as Hne.
  split; [apply lookup_insert_eq|].
  split; [subst s_build; by rewrite lookup_insert_ne, lookup_insert_eq|].
  rewrite (mkdocs_run sh clean w c r Hi Hr Hb c Hs Hd).
  fold s_build code s_out. by rewrite Hc.
Qed.

Lemma mkdocs_success_witness :
  let end_ := mkdocs (sh_site 0) true (World repo []) in
  end_.1 = Ok tt /\
  w_fs end_.2 !! "docs/index.md" = Some (File "old") /\
  w_fs end_.2 !! "index.md_original" = None /\
  w_fs end_.2 !! "site/index.html" = Some (File "mkdocs build --clean").
Proof.
  intros end_. subst end_.
  destruct (mkdocs_success (sh_site 0) true (World repo []) "old" "new")
    as (_ & _ & ->).
  - reflexivity.
  - reflexivity.
  - vm_compute. discriminate.
  - reflexivity.
  - vm_compute. reflexivity.
  - vm_compute. discriminate.
  - repeat split; vm_compute; reflexivity.
Defined.

(** X9. Without a README (the index being a file) the task fails with the
    [FileNotFoundError] of the copy of the README; the build command is not
    called; the index keeps its content and the backup is removed, so the
    filesystem is the initial one without anything at the backup path. *)
Theorem mkdocs_without_readme sh (clean : bool) (w : world) (c : string) :
  w_fs w !! index_path = Some (File c) ->
  w_fs w !! "README.md" = None ->
  w_fs w !! index_backup_path ≠ Some Dir ->
  mkdocs sh clean w =
  (Raise (Exn (OSError FileNotFoundError (SysCopy2 "README.md" index_path)) []),
   World (delete index_backup_path (w_fs w))
         (w_trace w ++ temp_file_entry index_backup_path
            ++ backup_entry index_path index_backup_path
            ++ [EvCall (SysCopy2 "README.md" index_path)]
            ++ backup_exit index_path index_backup_path
            ++ temp_file_exit index_backup_path)).
Proof.
  intros Hi Hr Hb.
  pose proof index_path_not_backup as Hne.
  assert (Hne' : index_backup_path ≠ index_path) by done.
  set (s_in := <[index_backup_path := File c]> (w_fs w)).
  assert (Hin : s_in !! index_path = Some (File c))
    by (subst s_in; by rewrite lookup_insert_ne).
  unfold mkdocs.
  rewrite (backed_up_file_exit_effect_gen index_path index_backup_path w c
             Hi Hne Hb _
             (Raise (Exn (OSError FileNotFoundError
                            (SysCopy2 "README.md" index_path)) []))
             (World s_in (w_trace w ++ temp_file_entry index_backup_path
                            ++ backup_entry index_path index_backup_path
                            ++ [EvCall (SysCopy2 "README.md" index_path)]))
             c).
  - simpl. f_equal. f_equal; [|trace_eq].
    rewrite (insert_id s_in) by done. subst s_in. apply delete_insert_eq.
  - fold s_in. exec. rewrite Hin. simpl.
    assert (Hrs : s_in !! "README.md" = None)
      by (subst s_in; by rewrite lookup_insert_ne).
    rewrite Hrs. simpl. f_equal. f_equal. trace_eq.
  - simpl. subst s_in. apply lookup_insert_eq.
  - simpl. rewrite Hin. discriminate.
Qed.

Lemma mkdocs_without_readme_witness :
  w_fs (mkdocs (sh_site 0) false
          (World {["docs/index.md" := File "old"]} [])).2
  = {["docs/index.md" := File "old"]}.
Proof.
  rewrite (mkdocs_without_readme (sh_site 0) false
             (World {["docs/index.md" := File "old"]} []) "old").
  - vm_compute. reflexivity.
  - reflexivity.
  - reflexivity.
  - vm_compute. discriminate.
Defined.

(** X10. Without an index (the system letting the placeholder be created,
    read and removed at the backup path)
    the task fails at the backup copy, with [FileNotFoundError], and never
    calls the build command; the restoring copy is called all the same. In a
    checkout where the operating system lets the index be created, an empty
    index is left behind and the error of the backup copy reaches the
    caller; where it refuses (no [docs] directory, say) no index appears and
    the caller receives the error of the restoring copy, with the one of the
    backup copy as its context. Anything at the backup path is cleared, the
    rest of the filesystem is untouched. *)
Theorem mkdocs_without_index {sys : OS} sh (clean : bool) (w : world) :
  let s_made := <[resolve index_backup_path := File ""]> (w_fs w) in
  resolve index_path ≠ resolve index_backup_path ->
  w_fs w !! resolve index_path = None ->
  w_fs w !! resolve index_backup_path ≠ Some Dir ->
  refuses (w_fs w) Writing index_backup_path = None ->
  refuses s_made Reading index_path = None ->
  refuses s_made Reading index_backup_path = None ->
  refuses s_made Unlinking index_backup_path = None ->
  refuses (<[resolve index_path := File ""]> s_made) Unlinking index_backup_path
    = None ->
  let entry_error :=
    OSError FileNotFoundError (SysCopy2 index_path index_backup_path) in
  let history :=
    w_trace w ++ temp_file_entry index_backup_path
      ++ backup_entry index_path index_backup_path
      ++ backup_exit index_path index_backup_path
      ++ temp_file_exit index_backup_path in
  mkdocs sh clean w =
  match refuses s_made Writing index_path with
  | None =>
      (Raise (Exn entry_error []),
       World (<[resolve index_path := File ""]>
                (delete (resolve index_backup_path) (w_fs w))) history)
  | Some kind =>
      (Raise (Exn (OSError kind (SysCopy2 index_backup_path index_path))
                  [entry_error]),
       World (delete (resolve index_backup_path) (w_fs w)) history)
  end.
Proof.
  intros s_made Hne Hi Hb Hw Hr1 Hr2 Hu Hu'. unfold mkdocs.
  by apply backed_up_file_missing_file_gen.
Qed.

Lemma mkdocs_without_index_witness :
  let no_docs := World {["README.md" := File "new"]} [] in
  let with_docs := World (<["docs" := Dir]> {["README.md" := File "new"]}) [] in
  let run := mkdocs (sys:=strict) (sh_site 0) false in
  (run no_docs).1 =
    Raise (Exn (OSError FileNotFoundError
                  (SysCopy2 "index.md_original" "docs/index.md"))
               [OSError FileNotFoundError
                  (SysCopy2 "docs/index.md" "index.md_original")]) /\
  w_fs (run no_docs).2 = {["README.md" := File "new"]} /\
  (run with_docs).1 =
    Raise (Exn (OSError FileNotFoundError
                  (SysCopy2 "docs/index.md" "index.md_original")) []) /\
  w_fs (run with_docs).2 !! "docs/index.md" = Some (File "").
Proof.
  intros no_docs with_docs run. subst run.
  rewrite (mkdocs_without_index (sys:=strict) (sh_site 0) false no_docs),
    (mkdocs_without_index (sys:=strict) (sh_site 0) false with_docs).
  - repeat split; vm_compute; reflexivity.
  - discriminate.
  - reflexivity.
  - vm_compute. discriminate.
  - reflexivity.
  - reflexivity.
  - reflexivity.
  - reflexivity.
  - reflexivity.
  - discriminate.
  - reflexivity.
  - vm_compute. discriminate.
  - reflexivity.
  - reflexivity.
  - reflexivity.
  - reflexivity.
  - reflexivity.
Defined.

(** X11. With a directory at the backup path the task stops at once: no copy
    is attempted, the build command is not called, the filesystem is left
    untouched, and the caller receives the [IsADirectoryError] of the removal
    with the one of the creation as its context. *)
Theorem mkdocs_backup_is_directory sh (clean : bool) (w : world) :
  w_fs w !! index_backup_path = Some Dir ->
  mkdocs sh clean w =
  (Raise (Exn (OSError IsADirectoryError (SysRemove index_backup_path))
              [OSError IsADirectoryError (SysOpenW index_backup_path)]),
   World (w_fs w)
         (w_trace w ++ temp_file_entry index_backup_path
            ++ temp_file_exit index_backup_path)).
Proof.
  intros Hb. unfold mkdocs, backed_up_file.
  by apply temp_file_creation_raises.
Qed.

Lemma mkdocs_backup_is_directory_witness :
  w_fs (mkdocs (sh_site 0) false
          (World (<["index.md_original" := Dir]> repo) [])).2
  = <["index.md_original" := Dir]> repo.
Proof.
  rewrite (mkdocs_backup_is_directory (sh_site 0) false
             (World (<["index.md_original" := Dir]> repo) [])).
  - reflexivity.
  - vm_compute. reflexivity.
Defined.

(** ** The "build API reference" and "build full site" tasks *)

Lemma api_run sh (w : world) :
  api sh w =
  (let k := (sh "lein codox" (w_fs w)).1 in
   if (k =? 0)%Z then Ok tt
   else Raise (Exn (OSError (Failure k) (SysRun "lein codox")) []),
   World (sh "lein codox" (w_fs w)).2
         (w_trace w ++ [EvEcho "lein codox"; EvCall (SysRun "lein codox")])).
Proof.
  unfold api, lein, run. exec.
  destruct (sh _ _) as [k s]. simpl.
  destruct (k =? 0)%Z; simpl; f_equal; f_equal; trace_eq.
Qed.

(** X12. In a run of the "build full site" task whose static-site build goes
    well, the API-reference command [lein codox] is started only after the
    index has been restored and the backup removed: it works on a filesystem
    in which the index holds its former content and nothing is at the backup
    path. The task ends as that command ends, failing with its exit code
    when it is not zero, and the filesystem is the one that command left. *)
Theorem site_api_sees_restored_index sh (w : world) (c r : string) :
  w_fs w !! index_path = Some (File c) ->
  w_fs w !! "README.md" = Some (File r) ->
  w_fs w !! index_backup_path ≠ Some Dir ->
  let s_build :=
    <[index_path := File r]> (<[index_backup_path := File c]> (w_fs w)) in
  let s_out := (sh "mkdocs build --clean" s_build).2 in
  (sh "mkdocs build --clean" s_build).1 = 0%Z ->
  s_out !! index_backup_path = Some (File c) ->
  s_out !! index_path ≠ Some Dir ->
  let s_api := delete index_backup_path (<[index_path := File c]> s_out) in
  let k := (sh "lein codox" s_api).1 in
  s_api !! index_path = Some (File c) /\
  s_api !! index_backup_path = None /\
  (site sh w).1 =
    (if (k =? 0)%Z then Ok tt
     else Raise (Exn (OSError (Failure k) (SysRun "lein codox")) [])) /\
  w_fs (site sh w).2 = (sh "lein codox" s_api).2.
Proof.
  intros Hi Hr Hb s_build s_out Hc Hs Hd s_api k.
  pose proof index_path_not_backup as Hne.
  split; [subst s_api; by rewrite lookup_delete_ne, lookup_insert_eq|].
  split; [apply lookup_delete_eq|].
  rewrite site_unfold.
  rewrite (mkdocs_run sh true w c r Hi Hr Hb c Hs Hd).
  change (build_command true) with "mkdocs build --clean".
  fold s_build. rewrite Hc. simpl. rewrite api_run. simpl.
  fold s_out s_api k. split; reflexivity.
Qed.

Lemma site_api_sees_restored_index_witness :
  (site (sh_site 0) (World repo [])).1 = Ok tt /\
  w_fs (site (sh_site 0) (World repo [])).2 !! "docs/index.md" = Some (File "old") /\
  w_fs (site (sh_site 0) (World repo [])).2 !! "site/index.html"
    = Some (File "lein codox").
Proof.
  destruct (site_api_sees_restored_index (sh_site 0) (World repo []) "old" "new")
    as (_ & _ & Hr & Hs).
  - reflexivity.
  - reflexivity.
  - vm_compute. discriminate.
  - reflexivity.
  - vm_compute. reflexivity.
  - vm_compute. discriminate.
  - rewrite Hr, Hs. repeat split; vm_compute; reflexivity.
Defined.

(** ** The working-directory guard *)

Section ChdirProperties.

Variable enter : filesystem -> string -> string -> error + string.

Lemma chdir_run (dirname d : string) (body : P unit) (p : process) :
  enter (w_fs (p_world p)) (p_cwd p) dirname = inr d ->
  chdir enter dirname body p =
  let '(r, p1) := body (chdir_entered dirname d p) in
  match enter (w_fs (p_world p1)) (p_cwd p1) (p_cwd p), r with
  | inr d', _ => (r, Process d' (p_world p1))
  | inl e2, Ok _ => (Raise (Exn e2 []), p1)
  | inl e2, Raise x => (Raise (Exn e2 (exn_err x :: exn_context x)), p1)
  end.
Proof.
  intros He.
  unfold chdir, pbind, ptry_finally, os_getcwd, os_chdir, lift, print, log.
  simpl. rewrite He. clear He. simpl. unfold chdir_entered.
  destruct (body _) as [[[]|x] p1]; simpl;
    destruct (enter _ _ _) as [e2|d']; reflexivity.
Qed.

End ChdirProperties.

(** X13. When [os.chdir(dirname)] succeeds, the block starts in the directory
    entered, after the line "current dir: dirname" has been printed; and when
    the saved directory can be entered again at the end, the guard ends
    exactly as the block ended (same result, same filesystem and history)
    with the process back in that directory, wherever the block moved to. *)
Theorem chdir_restores_cwd enter (dirname d d' : string) (body : P unit)
    (p : process) :
  enter (w_fs (p_world p)) (p_cwd p) dirname = inr d ->
  let r := (body (chdir_entered dirname d p)).1 in
  let p1 := (body (chdir_entered dirname d p)).2 in
  enter (w_fs (p_world p1)) (p_cwd p1) (p_cwd p) = inr d' ->
  chdir enter dirname body p = (r, Process d' (p_world p1)).
Proof.
  intros He r p1 Hr. rewrite (chdir_run enter dirname d body p He).
  subst r p1. destruct (body _) as [r p1]. simpl in *. by rewrite Hr.
Qed.

Lemma chdir_restores_cwd_witness :
  let body := run_pblock (fun d s =>
                (Some (BlockError "boom"), ("/", <[d +:+ "/out" := File "x"]> s))) in
  let end_ := chdir chdir_by_name "docs" body (Process "/repo" (World tree [])) in
  p_cwd end_.2 = "/repo" /\
  end_.1 = Raise (Exn (BlockError "boom") []) /\
  w_fs (p_world end_.2) !! "/repo/docs/out" = Some (File "x") /\
  w_trace (p_world end_.2) = [EvPrint "current dir: docs"; EvBlock].
Proof.
  intros body end_. subst end_.
  rewrite (chdir_restores_cwd chdir_by_name "docs" "/repo/docs" "/repo" body
             (Process "/repo" (World tree []))).
  - repeat split; vm_compute; reflexivity.
  - vm_compute. reflexivity.
  - vm_compute. reflexivity.
Defined.

(** X14. When [os.chdir(dirname)] fails, the block is not run and nothing is
    printed, but the [finally] still calls [os.chdir] on the saved directory:
    the entry error reaches the caller when that call succeeds, and when it
    fails too the caller receives its error, with the entry error as context.
    Filesystem and history are left as they were. *)
Theorem chdir_entry_fails enter (dirname : string) (e : error) (body : P unit)
    (p : process) :
  enter (w_fs (p_world p)) (p_cwd p) dirname = inl e ->
  chdir enter dirname body p =
  match enter (w_fs (p_world p)) (p_cwd p) (p_cwd p) with
  | inr d' => (Raise (Exn e []), Process d' (p_world p))
  | inl e2 => (Raise (Exn e2 [e]), p)
  end.
Proof.
  intros He.
  unfold chdir, pbind, ptry_finally, os_getcwd, os_chdir. simpl.
  rewrite He. clear He. simpl. destruct (enter _ _ _); reflexivity.
Qed.

Lemma chdir_entry_fails_witness :
  chdir chdir_by_name "site" (run_pblock (fun d s => (None, (d, delete "/repo" s))))
    (Process "/repo" (World tree []))
  = (Raise (Exn (BlockError "cannot enter /repo/site") []),
     Process "/repo" (World tree [])).
Proof.
  rewrite (chdir_entry_fails chdir_by_name "site"
             (BlockError "cannot enter /repo/site")).
  - vm_compute. reflexivity.
  - vm_compute. reflexivity.
Defined.

(** X15. When the saved directory cannot be entered at the end (the block
    removed it, say), the caller receives the error of that [os.chdir], also
    after a block that ended normally; an exception of the block survives
    only as its context, and the process stays in the directory where the
    block left it. *)
Theorem chdir_restore_fails enter (dirname d : string) (e2 : error)
    (body : P unit) (p : process) :
  enter (w_fs (p_world p)) (p_cwd p) dirname = inr d ->
  let r := (body (chdir_entered dirname d p)).1 in
  let p1 := (body (chdir_entered dirname d p)).2 in
  enter (w_fs (p_world p1)) (p_cwd p1) (p_cwd p) = inl e2 ->
  chdir enter dirname body p =
  (Raise (Exn e2 match r with
                 | Ok _ => []
                 | Raise x => exn_err x :: exn_context x
                 end), p1).
Proof.
  intros He r p1 Hr. rewrite (chdir_run enter dirname d body p He).
  subst r p1. destruct (body _) as [r p1]. simpl in *. rewrite Hr.
  by destruct r.
Qed.

Lemma chdir_restore_fails_witness :
  let end_ := chdir chdir_by_name "docs"
                (run_pblock (fun d s => (None, (d, delete "/repo" s))))
                (Process "/repo" (World tree [])) in
  end_.1 = Raise (Exn (BlockError "cannot enter /repo") []) /\
  p_cwd end_.2 = "/repo/docs".
Proof.
  intros end_. subst end_.
  rewrite (chdir_restore_fails chdir_by_name "docs" "/repo/docs"
             (BlockError "cannot enter /repo")).
  - split; vm_compute; reflexivity.
  - vm_compute. reflexivity.
  - vm_compute. reflexivity.
Defined.

(** X16. The guard itself never touches the filesystem and adds one line to
    the history at most: after [chdir], filesystem and history are the
    initial ones when the directory could not be entered, and otherwise the
    ones the block left, the block having started on the initial filesystem
    with the line "current dir: dirname" printed. *)
Theorem chdir_world enter (dirname : string) (body : P unit) (p : process) :
  p_world (chdir enter dirname body p).2 =
  match enter (w_fs (p_world p)) (p_cwd p) dirname with
  | inl _ => p_world p
  | inr d => p_world (body (chdir_entered dirname d p)).2
  end.
Proof.
  destruct (enter (w_fs (p_world p)) (p_cwd p) dirname) as [e|d] eqn:He.
  - unfold chdir, pbind, ptry_finally, os_getcwd, os_chdir. simpl.
    rewrite He. clear He. simpl. destruct (enter _ _ _); reflexivity.
  - rewrite (chdir_run enter dirname d body p He). clear He.
    destruct (body _) as [r p1]. simpl.
    destruct (enter _ _ _); [destruct r|]; reflexivity.
Qed.

(** X17. Guards nest: with [chdir(a)] around [chdir(b)] around a block, when
    both directories can be entered and each saved directory can be entered
    again on the way out, the block starts in the inner directory after both
    lines have been printed in order, the whole ends as the block ended and
    the process is back in the directory where it started. *)
Theorem chdir_nested enter (a b da db : string) (body : P unit) (p : process) :
  enter (w_fs (p_world p)) (p_cwd p) a = inr da ->
  enter (w_fs (p_world p)) da b = inr db ->
  let q := chdir_entered b db (chdir_entered a da p) in
  let r := (body q).1 in
  let p1 := (body q).2 in
  enter (w_fs (p_world p1)) (p_cwd p1) da = inr da ->
  enter (w_fs (p_world p1)) da (p_cwd p) = inr (p_cwd p) ->
  p_cwd q = db /\
  w_trace (p_world q) =
    w_trace (p_world p) ++ [EvPrint ("current dir: " +:+ a);
                            EvPrint ("current dir: " +:+ b)] /\
  chdir enter a (chdir enter b body) p = (r, Process (p_cwd p) (p_world p1)).
Proof.
  intros Ha Hb q r p1 H1 H2.
  split; [reflexivity|]. split; [simpl; by rewrite <- app_assoc|].
  rewrite (chdir_run enter a da _ p Ha).
  rewrite (chdir_run enter b db body (chdir_entered a da p) Hb).
  fold q. subst r p1. destruct (body q) as [r p1]. simpl in *.
  rewrite H1. simpl. by rewrite H2.
Qed.

Lemma chdir_nested_witness :
  let body := run_pblock (fun d s => (None, ("/", <[d +:+ "/out" := File "x"]> s))) in
  let fs := <["/repo/docs/api" := Dir]> tree in
  let end_ := chdir chdir_by_name "docs" (chdir chdir_by_name "api" body)
                (Process "/repo" (World fs [])) in
  end_.1 = Ok tt /\
  p_cwd end_.2 = "/repo" /\
  w_fs (p_world end_.2) !! "/repo/docs/api/out" = Some (File "x").
Proof.
  intros body fs end_. subst end_.
  destruct (chdir_nested chdir_by_name "docs" "api" "/repo/docs" "/repo/docs/api"
              body (Process "/repo" (World fs []))) as (_ & _ & ->).
  - vm_compute. reflexivity.
  - vm_compute. reflexivity.
  - vm_compute. reflexivity.
  - vm_compute. reflexivity.
  - repeat split; vm_compute; reflexivity.
Defined.
